(** * QForge self-healing core: failure analyzer, fix catalog and manager

    A shallow embedding of [src/core/self-healing] (types, failure-patterns,
    failure-fixes, analyzer, manager) together with the properties of its
    specification.

    JavaScript values are modelled the way the program sees them at run time:
    - a string is its sequence of UTF-16 code units ([jsstring]);
    - the string enums [FailureType] and [FailureSeverity] are their string
      values (['test'], ['low'], ...), so that the [default] branch of a
      [switch] and a missing key of an object literal are expressible;
    - a regular expression is its syntax tree, matched by a backtracking
      matcher with the priorities of ECMAScript (greedy quantifiers, ordered
      alternation, leftmost start position). *)

From Stdlib Require Import ZArith NArith Ascii String List Sorting.Sorted.
From stdpp Require Import base decidable option list finite gmap strings pretty.

Local Open Scope Z_scope.

(* ===================================================================== *)
(** ** JavaScript strings *)
(* ===================================================================== *)

Module JS.

(** A JavaScript string: a finite sequence of 16-bit code units. *)
Definition jsstring : Type := list N.

Definition byte (a : ascii) : N := N_of_ascii a.

(** Continuation byte [10xxxxxx] of UTF-8: its six payload bits. *)
Definition cont (a : ascii) : N := N.land (byte a) 63.

(** Code units of a code point: itself in the BMP, a surrogate pair above. *)
Definition units_of_code_point (cp : N) : jsstring :=
  if (cp <? 65536)%N then [cp]
  else let v := (cp - 65536)%N in
       [(55296 + N.shiftr v 10)%N; (56320 + N.land v 1023)%N].

(** Source text (UTF-8, the encoding of the [.ts] files) to code units.
    A string literal of the program is written [js "..."] below. *)
Fixpoint js (s : string) : jsstring :=
  match s with
  | EmptyString => []
  | String a rest =>
      let b := byte a in
      if (b <? 128)%N then b :: js rest
      else if (b <? 224)%N then
        match rest with
        | String a1 rest1 =>
            units_of_code_point (N.shiftl (N.land b 31) 6 + cont a1) ++ js rest1
        | _ => [b]
        end
      else if (b <? 240)%N then
        match rest with
        | String a1 (String a2 rest2) =>
            units_of_code_point
              (N.shiftl (N.land b 15) 12 + N.shiftl (cont a1) 6 + cont a2)
              ++ js rest2
        | _ => b :: js rest
        end
      else
        match rest with
        | String a1 (String a2 (String a3 rest3)) =>
            units_of_code_point
              (N.shiftl (N.land b 7) 18 + N.shiftl (cont a1) 12
               + N.shiftl (cont a2) 6 + cont a3)
              ++ js rest3
        | _ => b :: js rest
        end
  end.

(** [s.startsWith(p)] on code units. *)
Fixpoint startsWith (p s : jsstring) : bool :=
  match p, s with
  | [], _ => true
  | _ :: _, [] => false
  | a :: p', b :: s' => (a =? b)%N && startsWith p' s'
  end.

(** [s.indexOf(p)]: the first position where [p] occurs, [-1] when none. *)
Fixpoint indexOf_from (i : Z) (s p : jsstring) : Z :=
  if startsWith p s then i
  else match s with
       | [] => -1
       | _ :: s' => indexOf_from (i + 1) s' p
       end.

Definition indexOf (s p : jsstring) : Z := indexOf_from 0 s p.

(** [s.includes(p)]. *)
Definition includes (s p : jsstring) : bool := negb (indexOf s p =? -1).

(** [s.substring(a, b)] for [0 <= a] and [0 <= b] (the only calls made). *)
Definition substring (s : jsstring) (a b : Z) : jsstring :=
  let lo := Z.min a b in
  let hi := Z.max a b in
  take (Z.to_nat (hi - lo)) (drop (Z.to_nat lo) s).

Definition length (s : jsstring) : Z := Z.of_nat (List.length s).

End JS.

Abbreviation jsstring := JS.jsstring.
Abbreviation js := JS.js.

(* ===================================================================== *)
(** ** Regular expressions *)
(* ===================================================================== *)

Module RegExp.

(** Members of a character class. *)
Inductive ClassAtom : Type :=
  | CRange (lo hi : N)   (* [a-z]; a single character is [CRange c c] *)
  | CSpace               (* \s *)
  | CDigit.              (* \d *)

(** The syntax of the regular expressions that occur in the program. *)
Inductive Node : Type :=
  | Empty                                   (* the empty pattern *)
  | Char (c : N)                            (* a literal character *)
  | Dot                                     (* . *)
  | Class (negated : bool) (atoms : list ClassAtom)   (* [...] and [^...] *)
  | Seq (r1 r2 : Node)                      (* r1 r2 *)
  | Alt (r1 r2 : Node)                      (* r1|r2 *)
  | Opt (r : Node)                          (* r? greedy *)
  | Plus (r : Node)                         (* r+ greedy *)
  | Group (r : Node).                       (* (r) and (?:r) *)

(** A [RegExp] object: source text, the [i] flag and the parsed pattern. *)
Record t : Type := mk {
  source : string;
  ignoreCase : bool;
  node : Node
}.

(** [regex.toString()]. *)
Definition toString (re : t) : string :=
  "/" +:+ source re +:+ "/" +:+ (if ignoreCase re then "i" else "").

(** *** Building blocks used to write the catalog *)

Definition range (a b : ascii) : ClassAtom := CRange (JS.byte a) (JS.byte b).
Definition one (a : ascii) : ClassAtom := range a a.

Fixpoint chars (s : jsstring) : Node :=
  match s with
  | [] => Empty
  | [c] => Char c
  | c :: s' => Seq (Char c) (chars s')
  end.

(** A run of literal characters. *)
Definition Lit (s : string) : Node := chars (js s).

Definition Space : Node := Class false [CSpace].    (* \s *)
Definition Digit : Node := Class false [CDigit].    (* \d *)

(** Concatenation and alternation of several patterns. *)
Fixpoint cat (l : list Node) : Node :=
  match l with
  | [] => Empty
  | [r] => r
  | r :: l' => Seq r (cat l')
  end.

Fixpoint alts (l : list Node) : Node :=
  match l with
  | [] => Empty
  | [r] => r
  | r :: l' => Alt r (alts l')
  end.

(** *** Character matching *)

(** WhiteSpace and LineTerminator code points of ECMAScript ([\s]). *)
Definition isSpace (c : N) : bool :=
  ((9 <=? c) && (c <=? 13) || (c =? 32) || (c =? 160) || (c =? 5760)
   || (8192 <=? c) && (c <=? 8202) || (c =? 8232) || (c =? 8233)
   || (c =? 8239) || (c =? 8287) || (c =? 12288) || (c =? 65279))%N.

Definition isDigit (c : N) : bool := ((48 <=? c) && (c <=? 57))%N.

(** LineTerminator: the characters [.] does not match. *)
Definition isLineTerminator (c : N) : bool :=
  ((c =? 10) || (c =? 13) || (c =? 8232) || (c =? 8233))%N.

(** Canonicalize of ECMAScript (no [u] flag), restricted to what the
    catalog needs: an ASCII letter is mapped to its upper case; a code unit
    from 128 on is never mapped below 128, and none of the non-ASCII
    characters written in a pattern of this program has a case variant, so
    those are compared as they are. *)
Definition canonicalize (ic : bool) (c : N) : N :=
  if ic && (97 <=? c)%N && (c <=? 122)%N then (c - 32)%N else c.

Definition charEq (ic : bool) (p c : N) : bool :=
  (canonicalize ic p =? canonicalize ic c)%N.

(** Under [i] a range matches [c] when some member has the canonical form
    of [c]: for a range inside ASCII, when [c] or its other case is in it. *)
Definition swapCase (c : N) : N :=
  if ((97 <=? c) && (c <=? 122))%N then (c - 32)%N
  else if ((65 <=? c) && (c <=? 90))%N then (c + 32)%N
  else c.

Definition inRange (lo hi c : N) : bool := ((lo <=? c) && (c <=? hi))%N.

Definition atomMatches (ic : bool) (a : ClassAtom) (c : N) : bool :=
  match a with
  | CRange lo hi => inRange lo hi c || ic && inRange lo hi (swapCase c)
  | CSpace => isSpace c
  | CDigit => isDigit c
  end.

Definition classMatches (ic : bool) (negated : bool) (atoms : list ClassAtom)
    (c : N) : bool :=
  xorb negated (existsb (fun a => atomMatches ic a c) atoms).

(** *** The backtracking matcher

    [m ic r s k] matches [r] at the front of [s] and hands the rest of the
    input to the continuation [k]; the first success in priority order is
    returned. The result is the input left after the whole match. *)

Definition Cont : Type := jsstring -> option jsstring.

Definition orElse (a : option jsstring) (b : unit -> option jsstring)
    : option jsstring :=
  match a with
  | Some x => Some x
  | None => b tt
  end.

Fixpoint m (ic : bool) (r : Node) (s : jsstring) (k : Cont) {struct r}
    : option jsstring :=
  match r with
  | Empty => k s
  | Char p =>
      match s with
      | c :: s' => if charEq ic p c then k s' else None
      | [] => None
      end
  | Dot =>
      match s with
      | c :: s' => if isLineTerminator c then None else k s'
      | [] => None
      end
  | Class negated atoms =>
      match s with
      | c :: s' => if classMatches ic negated atoms c then k s' else None
      | [] => None
      end
  | Seq r1 r2 => m ic r1 s (fun s' => m ic r2 s' k)
  | Alt r1 r2 => orElse (m ic r1 s k) (fun _ => m ic r2 s k)
  | Opt r1 =>
      (* an iteration that consumes nothing is rejected (RepeatMatcher) *)
      orElse
        (m ic r1 s (fun s' =>
           if (List.length s' <? List.length s)%nat then k s' else None))
        (fun _ => k s)
  | Plus r1 =>
      (* one mandatory iteration, then as many more as possible; every
         further iteration consumes input, so [length s'] bounds them *)
      let star :=
        fix star (fuel : nat) (s0 : jsstring) : option jsstring :=
          match fuel with
          | O => k s0
          | S fuel' =>
              orElse
                (m ic r1 s0 (fun s' =>
                   if (List.length s' <? List.length s0)%nat
                   then star fuel' s' else None))
                (fun _ => k s0)
          end in
      m ic r1 s (fun s' => star (List.length s') s')
  | Group r1 => m ic r1 s k
  end.

(** The match of [re] that starts exactly at the front of [s]. *)
Definition matchHere (re : t) (s : jsstring) : option jsstring :=
  match m (ignoreCase re) (node re) s Some with
  | Some rest => Some (take (List.length s - List.length rest)%nat s)
  | None => None
  end.

(** [re.exec(s)] without the [g] flag: the leftmost match, as the pair of its
    index and the matched text ([matches.index], [matches[0]]). *)
Fixpoint exec_from (re : t) (i : Z) (s : jsstring) : option (Z * jsstring) :=
  match matchHere re s with
  | Some x => Some (i, x)
  | None =>
      match s with
      | [] => None
      | _ :: s' => exec_from re (i + 1) s'
      end
  end.

Definition exec (re : t) (s : jsstring) : option (Z * jsstring) :=
  exec_from re 0 s.

(** [s.match(re)]: [matches[0]] when there is a match. *)
Definition match_ (s : jsstring) (re : t) : option jsstring :=
  snd <$> exec re s.

End RegExp.

Import RegExp.

(* ===================================================================== *)
(** ** Types ([types.ts]) *)
(* ===================================================================== *)

(** [enum FailureType]: a string enum. *)
Definition FailureType : Type := string.

Module FailureType.
Definition TEST : FailureType := "test".
Definition BUILD : FailureType := "build".
Definition DEPENDENCY : FailureType := "dependency".
Definition RESOURCE : FailureType := "resource".
Definition NETWORK : FailureType := "network".
Definition PERMISSION : FailureType := "permission".
Definition CONFIGURATION : FailureType := "configuration".
Definition TIMEOUT : FailureType := "timeout".
Definition UNKNOWN : FailureType := "unknown".
End FailureType.

(** [enum FailureSeverity]: a string enum. *)
Definition FailureSeverity : Type := string.

Module FailureSeverity.
Definition LOW : FailureSeverity := "low".
Definition MEDIUM : FailureSeverity := "medium".
Definition HIGH : FailureSeverity := "high".
Definition CRITICAL : FailureSeverity := "critical".
End FailureSeverity.

(** [type CIPlatform = 'github' | 'aws' | 'gitlab' | 'circleci'], at run
    time a string. *)
Definition CIPlatform : Type := string.

Module FailurePattern.
Record t : Type := {
  type : FailureType;
  severity : FailureSeverity;
  patterns : list RegExp.t;
  description : string
}.
End FailurePattern.

Module DetectedFailure.
Record t : Type := {
  type : FailureType;
  severity : FailureSeverity;
  message : jsstring;
  matchedPattern : string;
  description : string;
  location : option jsstring
}.
End DetectedFailure.

Module FailureFix.
Record t : Type := {
  type : FailureType;
  description : string;
  fixScript : option string;
  manualSteps : option (list string);
  platformSpecific : option bool;
  platforms : option (list CIPlatform)
}.
End FailureFix.

Module FixSuggestion.
Record t : Type := {
  failure : DetectedFailure.t;
  fixes : list FailureFix.t;
  autoFixPossible : bool;
  confidence : Z
}.
End FixSuggestion.

Module SelfHealingOptions.
Record t : Type := {
  autoRetry : bool;
  maxRetries : Z;
  retryDelay : Z;
  autoFix : bool;
  notifyOnFailure : bool;
  collectLogs : bool;
  platform : CIPlatform
}.
End SelfHealingOptions.

Definition DEFAULT_SELF_HEALING_OPTIONS : SelfHealingOptions.t :=
  {| SelfHealingOptions.autoRetry := true;
     SelfHealingOptions.maxRetries := 3;
     SelfHealingOptions.retryDelay := 60;
     SelfHealingOptions.autoFix := false;
     SelfHealingOptions.notifyOnFailure := true;
     SelfHealingOptions.collectLogs := true;
     SelfHealingOptions.platform := "github" |}.

(** [{ ...DEFAULT_SELF_HEALING_OPTIONS, platform }]: the options every caller
    in the repository builds. *)
Definition optionsFor (platform : CIPlatform) : SelfHealingOptions.t :=
  {| SelfHealingOptions.autoRetry := true;
     SelfHealingOptions.maxRetries := 3;
     SelfHealingOptions.retryDelay := 60;
     SelfHealingOptions.autoFix := false;
     SelfHealingOptions.notifyOnFailure := true;
     SelfHealingOptions.collectLogs := true;
     SelfHealingOptions.platform := platform |}.

(* ===================================================================== *)
(** ** The pattern catalog ([failure-patterns.ts]) *)
(* ===================================================================== *)

(** Every pattern of the catalog carries the [i] flag. *)
Definition rei (source : string) (node : Node) : RegExp.t :=
  RegExp.mk source true node.

Definition FAILURE_PATTERNS : list FailurePattern.t := [
  {| FailurePattern.type := FailureType.TEST;
     FailurePattern.severity := FailureSeverity.MEDIUM;
     FailurePattern.patterns := [
       rei "test(s)?\s+failed"
           (cat [Lit "test"; Opt (Group (Lit "s")); Plus Space; Lit "failed"]);
       rei "failing\s+test(s)?"
           (cat [Lit "failing"; Plus Space; Lit "test"; Opt (Group (Lit "s"))]);
       rei "assertion\s+failed"
           (cat [Lit "assertion"; Plus Space; Lit "failed"]);
       rei "expect(ed)?.+to\s+(equal|be|include|contain|have)"
           (cat [Lit "expect"; Opt (Group (Lit "ed")); Plus Dot; Lit "to";
             Plus Space; Group (alts [Lit "equal"; Lit "be"; Lit "include";
             Lit "contain"; Lit "have"])]);
       rei "AssertionError"
           (Lit "AssertionError");
       rei "Error:\s+Test\s+suite\s+failed\s+to\s+run"
           (cat [Lit "Error:"; Plus Space; Lit "Test"; Plus Space; Lit "suite";
             Plus Space; Lit "failed"; Plus Space; Lit "to"; Plus Space;
             Lit "run"]);
       rei "FAIL\s+[a-zA-Z0-9_./-]+\s+\(\d+\.\d+s\)"
           (cat [Lit "FAIL"; Plus Space; Plus (Class false [range "a" "z";
             range "A" "Z"; range "0" "9"; one "_"; one "."; one "/"; one "-"]);
             Plus Space; Lit "("; Plus Digit; Lit "."; Plus Digit; Lit "s)"]);
       rei "FAIL\s+src\/components\/Button\.test\.js"
           (cat [Lit "FAIL"; Plus Space; Lit "src/components/Button.test.js"]);
       rei "expect\(jest\.fn\(\)\)\.toHaveBeenCalledTimes\(1\)"
           (Lit "expect(jest.fn()).toHaveBeenCalledTimes(1)");
       rei "● Button component › handles click events"
           (Lit "● Button component › handles click events") ];
     FailurePattern.description :=
       "One or more tests failed during execution" |};

  {| FailurePattern.type := FailureType.TEST;
     FailurePattern.severity := FailureSeverity.LOW;
     FailurePattern.patterns := [
       rei "intermittent\s+test\s+failure"
           (cat [Lit "intermittent"; Plus Space; Lit "test"; Plus Space;
             Lit "failure"]);
       rei "flaky\s+test"
           (cat [Lit "flaky"; Plus Space; Lit "test"]);
       rei "test\s+sometimes\s+fails"
           (cat [Lit "test"; Plus Space; Lit "sometimes"; Plus Space;
             Lit "fails"]);
       rei "timeout\s+exceeded\s+waiting\s+for"
           (cat [Lit "timeout"; Plus Space; Lit "exceeded"; Plus Space;
             Lit "waiting"; Plus Space; Lit "for"]);
       rei "async\s+callback\s+was\s+not\s+invoked\s+within\s+the\s+\d+ms\s+timeout"
           (cat [Lit "async"; Plus Space; Lit "callback"; Plus Space;
             Lit "was"; Plus Space; Lit "not"; Plus Space; Lit "invoked";
             Plus Space; Lit "within"; Plus Space; Lit "the"; Plus Space;
             Plus Digit; Lit "ms"; Plus Space; Lit "timeout"]);
       rei "element\s+not\s+found"
           (cat [Lit "element"; Plus Space; Lit "not"; Plus Space; Lit "found"]);
       rei "element\s+not\s+visible"
           (cat [Lit "element"; Plus Space; Lit "not"; Plus Space;
             Lit "visible"]) ];
     FailurePattern.description :=
       "Tests appear to be flaky or timing-dependent" |};

  {| FailurePattern.type := FailureType.BUILD;
     FailurePattern.severity := FailureSeverity.HIGH;
     FailurePattern.patterns := [
       rei "build\s+failed"
           (cat [Lit "build"; Plus Space; Lit "failed"]);
       rei "compilation\s+failed"
           (cat [Lit "compilation"; Plus Space; Lit "failed"]);
       rei "cannot\s+find\s+module"
           (cat [Lit "cannot"; Plus Space; Lit "find"; Plus Space;
             Lit "module"]);
       rei "module\s+not\s+found"
           (cat [Lit "module"; Plus Space; Lit "not"; Plus Space; Lit "found"]);
       rei "import\s+error"
           (cat [Lit "import"; Plus Space; Lit "error"]);
       rei "syntax\s+error"
           (cat [Lit "syntax"; Plus Space; Lit "error"]);
       rei "error\s+TS\d+"
           (cat [Lit "error"; Plus Space; Lit "TS"; Plus Digit]);
       rei "error\s+C\d+"
           (cat [Lit "error"; Plus Space; Lit "C"; Plus Digit]);
       rei "error\s+MSB\d+"
           (cat [Lit "error"; Plus Space; Lit "MSB"; Plus Digit]);
       rei "error\s+NETSDK\d+"
           (cat [Lit "error"; Plus Space; Lit "NETSDK"; Plus Digit]);
       rei "error\s+CS\d+"
           (cat [Lit "error"; Plus Space; Lit "CS"; Plus Digit]);
       rei "error\s+LNK\d+"
           (cat [Lit "error"; Plus Space; Lit "LNK"; Plus Digit]);
       rei "error:\s+'[^']+'\s+is\s+not\s+a\s+member\s+of\s+'[^']+'"
           (cat [Lit "error:"; Plus Space; Lit "'";
             Plus (Class true [one "'"]); Lit "'"; Plus Space; Lit "is";
             Plus Space; Lit "not"; Plus Space; Lit "a"; Plus Space;
             Lit "member"; Plus Space; Lit "of"; Plus Space; Lit "'";
             Plus (Class true [one "'"]); Lit "'"]);
       rei "error:\s+use\s+of\s+undeclared\s+identifier"
           (cat [Lit "error:"; Plus Space; Lit "use"; Plus Space; Lit "of";
             Plus Space; Lit "undeclared"; Plus Space; Lit "identifier"]);
       rei "error:\s+expected\s+"
           (cat [Lit "error:"; Plus Space; Lit "expected"; Plus Space]) ];
     FailurePattern.description :=
       "Build or compilation process failed" |};

  {| FailurePattern.type := FailureType.DEPENDENCY;
     FailurePattern.severity := FailureSeverity.HIGH;
     FailurePattern.patterns := [
       rei "could\s+not\s+find\s+a\s+version\s+that\s+satisfies\s+the\s+requirement"
           (cat [Lit "could"; Plus Space; Lit "not"; Plus Space; Lit "find";
             Plus Space; Lit "a"; Plus Space; Lit "version"; Plus Space;
             Lit "that"; Plus Space; Lit "satisfies"; Plus Space; Lit "the";
             Plus Space; Lit "requirement"]);
       rei "could\s+not\s+resolve\s+dependencies"
           (cat [Lit "could"; Plus Space; Lit "not"; Plus Space; Lit "resolve";
             Plus Space; Lit "dependencies"]);
       rei "dependency\s+resolution\s+failed"
           (cat [Lit "dependency"; Plus Space; Lit "resolution"; Plus Space;
             Lit "failed"]);
       rei "package\s+not\s+found"
           (cat [Lit "package"; Plus Space; Lit "not"; Plus Space; Lit "found"]);
       rei "unable\s+to\s+resolve\s+dependency\s+tree"
           (cat [Lit "unable"; Plus Space; Lit "to"; Plus Space; Lit "resolve";
             Plus Space; Lit "dependency"; Plus Space; Lit "tree"]);
       rei "npm\s+ERR!\s+404"
           (cat [Lit "npm"; Plus Space; Lit "ERR!"; Plus Space; Lit "404"]);
       rei "pip\s+install\s+error"
           (cat [Lit "pip"; Plus Space; Lit "install"; Plus Space; Lit "error"]);
       rei "failed\s+to\s+install\s+dependencies"
           (cat [Lit "failed"; Plus Space; Lit "to"; Plus Space; Lit "install";
             Plus Space; Lit "dependencies"]);
       rei "no\s+matching\s+version\s+found\s+for"
           (cat [Lit "no"; Plus Space; Lit "matching"; Plus Space;
             Lit "version"; Plus Space; Lit "found"; Plus Space; Lit "for"]);
       rei "incompatible\s+dependency"
           (cat [Lit "incompatible"; Plus Space; Lit "dependency"]);
       rei "version\s+conflict"
           (cat [Lit "version"; Plus Space; Lit "conflict"]);
       rei "peer\s+dependency\s+conflict"
           (cat [Lit "peer"; Plus Space; Lit "dependency"; Plus Space;
             Lit "conflict"]);
       rei "requires\s+peer\s+dependency"
           (cat [Lit "requires"; Plus Space; Lit "peer"; Plus Space;
             Lit "dependency"]);
       rei "npm\s+ERR!\s+code\s+ERESOLVE"
           (cat [Lit "npm"; Plus Space; Lit "ERR!"; Plus Space; Lit "code";
             Plus Space; Lit "ERESOLVE"]);
       rei "npm\s+ERR!\s+ERESOLVE\s+could\s+not\s+resolve\s+dependency\s+tree"
           (cat [Lit "npm"; Plus Space; Lit "ERR!"; Plus Space; Lit "ERESOLVE";
             Plus Space; Lit "could"; Plus Space; Lit "not"; Plus Space;
             Lit "resolve"; Plus Space; Lit "dependency"; Plus Space;
             Lit "tree"]);
       rei "Could\s+not\s+resolve\s+dependency:"
           (cat [Lit "Could"; Plus Space; Lit "not"; Plus Space; Lit "resolve";
             Plus Space; Lit "dependency:"]) ];
     FailurePattern.description :=
       "Issues with dependency resolution or installation" |};

  {| FailurePattern.type := FailureType.RESOURCE;
     FailurePattern.severity := FailureSeverity.HIGH;
     FailurePattern.patterns := [
       rei "out\s+of\s+memory"
           (cat [Lit "out"; Plus Space; Lit "of"; Plus Space; Lit "memory"]);
       rei "memory\s+limit\s+exceeded"
           (cat [Lit "memory"; Plus Space; Lit "limit"; Plus Space;
             Lit "exceeded"]);
       rei "disk\s+space\s+limit\s+exceeded"
           (cat [Lit "disk"; Plus Space; Lit "space"; Plus Space; Lit "limit";
             Plus Space; Lit "exceeded"]);
       rei "no\s+space\s+left\s+on\s+device"
           (cat [Lit "no"; Plus Space; Lit "space"; Plus Space; Lit "left";
             Plus Space; Lit "on"; Plus Space; Lit "device"]);
       rei "resource\s+exhausted"
           (cat [Lit "resource"; Plus Space; Lit "exhausted"]);
       rei "cpu\s+usage\s+limit\s+exceeded"
           (cat [Lit "cpu"; Plus Space; Lit "usage"; Plus Space; Lit "limit";
             Plus Space; Lit "exceeded"]);
       rei "heap\s+limit\s+exceeded"
           (cat [Lit "heap"; Plus Space; Lit "limit"; Plus Space;
             Lit "exceeded"]);
       rei "JavaScript\s+heap\s+out\s+of\s+memory"
           (cat [Lit "JavaScript"; Plus Space; Lit "heap"; Plus Space;
             Lit "out"; Plus Space; Lit "of"; Plus Space; Lit "memory"]);
       rei "fatal\s+error:\s+Killed\s+process"
           (cat [Lit "fatal"; Plus Space; Lit "error:"; Plus Space;
             Lit "Killed"; Plus Space; Lit "process"]);
       rei "exit\s+code\s+137"
           (cat [Lit "exit"; Plus Space; Lit "code"; Plus Space; Lit "137"]);
       rei "exit\s+code\s+143"
           (cat [Lit "exit"; Plus Space; Lit "code"; Plus Space; Lit "143"]) ];
     FailurePattern.description :=
       "Process ran out of memory, disk space, or other resources" |};

  {| FailurePattern.type := FailureType.NETWORK;
     FailurePattern.severity := FailureSeverity.MEDIUM;
     FailurePattern.patterns := [
       rei "network\s+error"
           (cat [Lit "network"; Plus Space; Lit "error"]);
       rei "connection\s+refused"
           (cat [Lit "connection"; Plus Space; Lit "refused"]);
       rei "connection\s+reset"
           (cat [Lit "connection"; Plus Space; Lit "reset"]);
       rei "connection\s+timed\s+out"
           (cat [Lit "connection"; Plus Space; Lit "timed"; Plus Space;
             Lit "out"]);
       rei "network\s+timeout"
           (cat [Lit "network"; Plus Space; Lit "timeout"]);
       rei "failed\s+to\s+fetch"
           (cat [Lit "failed"; Plus Space; Lit "to"; Plus Space; Lit "fetch"]);
       rei "unable\s+to\s+connect\s+to"
           (cat [Lit "unable"; Plus Space; Lit "to"; Plus Space; Lit "connect";
             Plus Space; Lit "to"]);
       rei "could\s+not\s+resolve\s+host"
           (cat [Lit "could"; Plus Space; Lit "not"; Plus Space; Lit "resolve";
             Plus Space; Lit "host"]);
       rei "ECONNREFUSED"
           (Lit "ECONNREFUSED");
       rei "ECONNRESET"
           (Lit "ECONNRESET");
       rei "ETIMEDOUT"
           (Lit "ETIMEDOUT");
       rei "ENETUNREACH"
           (Lit "ENETUNREACH");
       rei "socket\s+hang\s+up"
           (cat [Lit "socket"; Plus Space; Lit "hang"; Plus Space; Lit "up"]);
       rei "TLS\s+handshake\s+failed"
           (cat [Lit "TLS"; Plus Space; Lit "handshake"; Plus Space;
             Lit "failed"]);
       rei "SSL\s+certificate\s+error"
           (cat [Lit "SSL"; Plus Space; Lit "certificate"; Plus Space;
             Lit "error"]) ];
     FailurePattern.description :=
       "Network connectivity issues or service unavailability" |};

  {| FailurePattern.type := FailureType.PERMISSION;
     FailurePattern.severity := FailureSeverity.HIGH;
     FailurePattern.patterns := [
       rei "permission\s+denied"
           (cat [Lit "permission"; Plus Space; Lit "denied"]);
       rei "EACCES"
           (Lit "EACCES");
       rei "insufficient\s+permissions"
           (cat [Lit "insufficient"; Plus Space; Lit "permissions"]);
       rei "not\s+authorized"
           (cat [Lit "not"; Plus Space; Lit "authorized"]);
       rei "authorization\s+failed"
           (cat [Lit "authorization"; Plus Space; Lit "failed"]);
       rei "access\s+denied"
           (cat [Lit "access"; Plus Space; Lit "denied"]);
       rei "forbidden"
           (Lit "forbidden");
       rei "403\s+Forbidden"
           (cat [Lit "403"; Plus Space; Lit "Forbidden"]);
       rei "401\s+Unauthorized"
           (cat [Lit "401"; Plus Space; Lit "Unauthorized"]);
       rei "authentication\s+failed"
           (cat [Lit "authentication"; Plus Space; Lit "failed"]);
       rei "could\s+not\s+authenticate"
           (cat [Lit "could"; Plus Space; Lit "not"; Plus Space;
             Lit "authenticate"]);
       rei "API\s+key\s+is\s+invalid"
           (cat [Lit "API"; Plus Space; Lit "key"; Plus Space; Lit "is";
             Plus Space; Lit "invalid"]);
       rei "token\s+is\s+invalid"
           (cat [Lit "token"; Plus Space; Lit "is"; Plus Space; Lit "invalid"]);
       rei "no\s+such\s+key"
           (cat [Lit "no"; Plus Space; Lit "such"; Plus Space; Lit "key"]) ];
     FailurePattern.description :=
       "Permission or authentication issues" |};

  {| FailurePattern.type := FailureType.CONFIGURATION;
     FailurePattern.severity := FailureSeverity.MEDIUM;
     FailurePattern.patterns := [
       rei "configuration\s+error"
           (cat [Lit "configuration"; Plus Space; Lit "error"]);
       rei "invalid\s+configuration"
           (cat [Lit "invalid"; Plus Space; Lit "configuration"]);
       rei "missing\s+configuration"
           (cat [Lit "missing"; Plus Space; Lit "configuration"]);
       rei "unknown\s+option"
           (cat [Lit "unknown"; Plus Space; Lit "option"]);
       rei "unrecognized\s+option"
           (cat [Lit "unrecognized"; Plus Space; Lit "option"]);
       rei "invalid\s+option"
           (cat [Lit "invalid"; Plus Space; Lit "option"]);
       rei "missing\s+required\s+option"
           (cat [Lit "missing"; Plus Space; Lit "required"; Plus Space;
             Lit "option"]);
       rei "missing\s+required\s+parameter"
           (cat [Lit "missing"; Plus Space; Lit "required"; Plus Space;
             Lit "parameter"]);
       rei "missing\s+required\s+environment\s+variable"
           (cat [Lit "missing"; Plus Space; Lit "required"; Plus Space;
             Lit "environment"; Plus Space; Lit "variable"]);
       rei "environment\s+variable\s+not\s+set"
           (cat [Lit "environment"; Plus Space; Lit "variable"; Plus Space;
             Lit "not"; Plus Space; Lit "set"]);
       rei "invalid\s+yaml"
           (cat [Lit "invalid"; Plus Space; Lit "yaml"]);
       rei "invalid\s+json"
           (cat [Lit "invalid"; Plus Space; Lit "json"]);
       rei "invalid\s+syntax"
           (cat [Lit "invalid"; Plus Space; Lit "syntax"]);
       rei "could\s+not\s+parse"
           (cat [Lit "could"; Plus Space; Lit "not"; Plus Space; Lit "parse"]);
       rei "unexpected\s+token"
           (cat [Lit "unexpected"; Plus Space; Lit "token"]) ];
     FailurePattern.description :=
       "Issues with configuration files or settings" |};

  {| FailurePattern.type := FailureType.TIMEOUT;
     FailurePattern.severity := FailureSeverity.MEDIUM;
     FailurePattern.patterns := [
       rei "timeout\s+exceeded"
           (cat [Lit "timeout"; Plus Space; Lit "exceeded"]);
       rei "timed\s+out"
           (cat [Lit "timed"; Plus Space; Lit "out"]);
       rei "timeout\s+waiting\s+for"
           (cat [Lit "timeout"; Plus Space; Lit "waiting"; Plus Space;
             Lit "for"]);
       rei "execution\s+timed\s+out"
           (cat [Lit "execution"; Plus Space; Lit "timed"; Plus Space;
             Lit "out"]);
       rei "job\s+exceeded\s+maximum\s+execution\s+time"
           (cat [Lit "job"; Plus Space; Lit "exceeded"; Plus Space;
             Lit "maximum"; Plus Space; Lit "execution"; Plus Space; Lit "time"]);
       rei "task\s+timed\s+out\s+after"
           (cat [Lit "task"; Plus Space; Lit "timed"; Plus Space; Lit "out";
             Plus Space; Lit "after"]);
       rei "operation\s+timed\s+out"
           (cat [Lit "operation"; Plus Space; Lit "timed"; Plus Space;
             Lit "out"]);
       rei "ETIMEDOUT"
           (Lit "ETIMEDOUT");
       rei "timeout\s+of\s+\d+ms\s+exceeded"
           (cat [Lit "timeout"; Plus Space; Lit "of"; Plus Space; Plus Digit;
             Lit "ms"; Plus Space; Lit "exceeded"]);
       rei "timeout\s+after\s+\d+s"
           (cat [Lit "timeout"; Plus Space; Lit "after"; Plus Space;
             Plus Digit; Lit "s"]) ];
     FailurePattern.description :=
       "Process or operation timed out" |}
].

Definition github_patterns : list FailurePattern.t := [
  {| FailurePattern.type := FailureType.PERMISSION;
     FailurePattern.severity := FailureSeverity.HIGH;
     FailurePattern.patterns := [
       rei "refusing\s+to\s+allow\s+a\s+(GitHub App|OAuth App|Personal Access Token)"
           (cat [Lit "refusing"; Plus Space; Lit "to"; Plus Space; Lit "allow";
             Plus Space; Lit "a"; Plus Space; Group (alts [Lit "GitHub App";
             Lit "OAuth App"; Lit "Personal Access Token"])]);
       rei "permission\s+to\s+[a-zA-Z0-9_/-]+\s+was\s+denied"
           (cat [Lit "permission"; Plus Space; Lit "to"; Plus Space;
             Plus (Class false [range "a" "z"; range "A" "Z"; range "0" "9";
             one "_"; one "/"; one "-"]); Plus Space; Lit "was"; Plus Space;
             Lit "denied"]);
       rei "workflow\s+does\s+not\s+have\s+permission\s+to\s+access\s+the\s+resource"
           (cat [Lit "workflow"; Plus Space; Lit "does"; Plus Space; Lit "not";
             Plus Space; Lit "have"; Plus Space; Lit "permission"; Plus Space;
             Lit "to"; Plus Space; Lit "access"; Plus Space; Lit "the";
             Plus Space; Lit "resource"]);
       rei "Resource\s+not\s+accessible\s+by\s+integration"
           (cat [Lit "Resource"; Plus Space; Lit "not"; Plus Space;
             Lit "accessible"; Plus Space; Lit "by"; Plus Space;
             Lit "integration"]) ];
     FailurePattern.description :=
       "GitHub Actions permission issues" |};

  {| FailurePattern.type := FailureType.CONFIGURATION;
     FailurePattern.severity := FailureSeverity.MEDIUM;
     FailurePattern.patterns := [
       rei "Invalid\s+workflow\s+file"
           (cat [Lit "Invalid"; Plus Space; Lit "workflow"; Plus Space;
             Lit "file"]);
       rei "Workflow\s+is\s+not\s+valid"
           (cat [Lit "Workflow"; Plus Space; Lit "is"; Plus Space; Lit "not";
             Plus Space; Lit "valid"]);
       rei "The\s+workflow\s+is\s+not\s+valid"
           (cat [Lit "The"; Plus Space; Lit "workflow"; Plus Space; Lit "is";
             Plus Space; Lit "not"; Plus Space; Lit "valid"]);
       rei "\.github\/workflows\/[a-zA-Z0-9_-]+\.ya?ml:\s+Error"
           (cat [Lit ".github/workflows/"; Plus (Class false [range "a" "z";
             range "A" "Z"; range "0" "9"; one "_"; one "-"]); Lit ".y";
             Opt (Lit "a"); Lit "ml:"; Plus Space; Lit "Error"]) ];
     FailurePattern.description :=
       "GitHub Actions workflow configuration issues" |}
].

Definition gitlab_patterns : list FailurePattern.t := [
  {| FailurePattern.type := FailureType.CONFIGURATION;
     FailurePattern.severity := FailureSeverity.MEDIUM;
     FailurePattern.patterns := [
       rei "\.gitlab-ci\.ya?ml:\s+([a-zA-Z0-9_-]+):\s+config\s+error"
           (cat [Lit ".gitlab-ci.y"; Opt (Lit "a"); Lit "ml:"; Plus Space;
             Group (Plus (Class false [range "a" "z"; range "A" "Z";
             range "0" "9"; one "_"; one "-"])); Lit ":"; Plus Space;
             Lit "config"; Plus Space; Lit "error"]);
       rei "Invalid\s+configuration\s+format"
           (cat [Lit "Invalid"; Plus Space; Lit "configuration"; Plus Space;
             Lit "format"]);
       rei "jobs:[a-zA-Z0-9_-]+\s+config\s+should\s+implement\s+a\s+script\s+or\s+a\s+trigger"
           (cat [Lit "jobs:"; Plus (Class false [range "a" "z"; range "A" "Z";
             range "0" "9"; one "_"; one "-"]); Plus Space; Lit "config";
             Plus Space; Lit "should"; Plus Space; Lit "implement"; Plus Space;
             Lit "a"; Plus Space; Lit "script"; Plus Space; Lit "or";
             Plus Space; Lit "a"; Plus Space; Lit "trigger"]) ];
     FailurePattern.description :=
       "GitLab CI configuration issues" |};

  {| FailurePattern.type := FailureType.RESOURCE;
     FailurePattern.severity := FailureSeverity.HIGH;
     FailurePattern.patterns := [
       rei "Runner\s+system\s+failure"
           (cat [Lit "Runner"; Plus Space; Lit "system"; Plus Space;
             Lit "failure"]);
       rei "Error:\s+Job\s+failed\s+\(system\s+failure\)"
           (cat [Lit "Error:"; Plus Space; Lit "Job"; Plus Space; Lit "failed";
             Plus Space; Lit "(system"; Plus Space; Lit "failure)"]) ];
     FailurePattern.description :=
       "GitLab CI runner resource issues" |}
].

Definition circleci_patterns : list FailurePattern.t := [
  {| FailurePattern.type := FailureType.CONFIGURATION;
     FailurePattern.severity := FailureSeverity.MEDIUM;
     FailurePattern.patterns := [
       rei "Error:\s+Workflow\s+validation\s+error"
           (cat [Lit "Error:"; Plus Space; Lit "Workflow"; Plus Space;
             Lit "validation"; Plus Space; Lit "error"]);
       rei "Error:\s+Could\s+not\s+find\s+a\s+definition\s+for\s+job"
           (cat [Lit "Error:"; Plus Space; Lit "Could"; Plus Space; Lit "not";
             Plus Space; Lit "find"; Plus Space; Lit "a"; Plus Space;
             Lit "definition"; Plus Space; Lit "for"; Plus Space; Lit "job"]);
       rei "Error:\s+Unknown\s+executor"
           (cat [Lit "Error:"; Plus Space; Lit "Unknown"; Plus Space;
             Lit "executor"]) ];
     FailurePattern.description :=
       "CircleCI configuration issues" |};

  {| FailurePattern.type := FailureType.RESOURCE;
     FailurePattern.severity := FailureSeverity.HIGH;
     FailurePattern.patterns := [
       rei "Error:\s+Resource\s+class\s+[a-zA-Z0-9_-]+\s+is\s+not\s+available"
           (cat [Lit "Error:"; Plus Space; Lit "Resource"; Plus Space;
             Lit "class"; Plus Space; Plus (Class false [range "a" "z";
             range "A" "Z"; range "0" "9"; one "_"; one "-"]); Plus Space;
             Lit "is"; Plus Space; Lit "not"; Plus Space; Lit "available"]);
       rei "Error:\s+No\s+available\s+resource\s+found"
           (cat [Lit "Error:"; Plus Space; Lit "No"; Plus Space;
             Lit "available"; Plus Space; Lit "resource"; Plus Space;
             Lit "found"]) ];
     FailurePattern.description :=
       "CircleCI resource issues" |}
].

Definition aws_patterns : list FailurePattern.t := [
  {| FailurePattern.type := FailureType.PERMISSION;
     FailurePattern.severity := FailureSeverity.HIGH;
     FailurePattern.patterns := [
       rei "User:\s+arn:aws:[a-zA-Z0-9:-]+\s+is\s+not\s+authorized\s+to\s+perform"
           (cat [Lit "User:"; Plus Space; Lit "arn:aws:";
             Plus (Class false [range "a" "z"; range "A" "Z"; range "0" "9";
             one ":"; one "-"]); Plus Space; Lit "is"; Plus Space; Lit "not";
             Plus Space; Lit "authorized"; Plus Space; Lit "to"; Plus Space;
             Lit "perform"]);
       rei "AccessDenied"
           (Lit "AccessDenied");
       rei "not\s+authorized\s+to\s+perform\s+action"
           (cat [Lit "not"; Plus Space; Lit "authorized"; Plus Space; Lit "to";
             Plus Space; Lit "perform"; Plus Space; Lit "action"]) ];
     FailurePattern.description :=
       "AWS CodePipeline permission issues" |};

  {| FailurePattern.type := FailureType.CONFIGURATION;
     FailurePattern.severity := FailureSeverity.MEDIUM;
     FailurePattern.patterns := [
       rei "Invalid\s+action\s+configuration"
           (cat [Lit "Invalid"; Plus Space; Lit "action"; Plus Space;
             Lit "configuration"]);
       rei "Action\s+configuration\s+validation\s+failed"
           (cat [Lit "Action"; Plus Space; Lit "configuration"; Plus Space;
             Lit "validation"; Plus Space; Lit "failed"]);
       rei "The\s+action\s+failed\s+because\s+the\s+artifact"
           (cat [Lit "The"; Plus Space; Lit "action"; Plus Space; Lit "failed";
             Plus Space; Lit "because"; Plus Space; Lit "the"; Plus Space;
             Lit "artifact"]) ];
     FailurePattern.description :=
       "AWS CodePipeline configuration issues" |}
].


(** [PLATFORM_FAILURE_PATTERNS: Record<string, FailurePattern[]>]. *)
Definition PLATFORM_FAILURE_PATTERNS : gmap string (list FailurePattern.t) :=
  list_to_map [
    ("github", github_patterns);
    ("gitlab", gitlab_patterns);
    ("circleci", circleci_patterns);
    ("aws", aws_patterns)
  ].

(* ===================================================================== *)
(** ** The fix catalog ([failure-fixes.ts]) *)
(* ===================================================================== *)

(** The double quote character, for the texts that contain one. *)
Definition dq : string := String (ascii_of_nat 34) EmptyString.

Definition COMMON_FIXES : list FailureFix.t := [
  {| FailureFix.type := FailureType.TEST;
     FailureFix.description := "Add retry for flaky tests";
     FailureFix.fixScript := None;
     FailureFix.manualSteps := Some [
       "Identify the specific tests that are failing";
       "Add retry logic to those tests or test suites";
       "Consider adding timeouts or increasing existing timeouts";
       "Check for race conditions or timing issues in the tests" ];
     FailureFix.platformSpecific := None;
     FailureFix.platforms := None |};

  {| FailureFix.type := FailureType.TEST;
     FailureFix.description := "Update test expectations";
     FailureFix.fixScript := None;
     FailureFix.manualSteps := Some [
       "Review the test failure messages to understand what expectations are not being met";
       "Update test expectations to match the current behavior if appropriate";
       "If the current behavior is incorrect, fix the implementation instead" ];
     FailureFix.platformSpecific := None;
     FailureFix.platforms := None |};

  {| FailureFix.type := FailureType.TEST;
     FailureFix.description := "Fix test environment issues";
     FailureFix.fixScript := None;
     FailureFix.manualSteps := Some [
       "Ensure test environment has all required dependencies";
       "Check for environment-specific issues (file paths, environment variables, etc.)";
       "Verify that test fixtures or mock data are up to date";
       "Consider using containerization to ensure consistent test environments" ];
     FailureFix.platformSpecific := None;
     FailureFix.platforms := None |};

  {| FailureFix.type := FailureType.BUILD;
     FailureFix.description := "Fix compilation errors";
     FailureFix.fixScript := None;
     FailureFix.manualSteps := Some [
       "Review the build logs to identify specific compilation errors";
       "Fix syntax errors, type errors, or other compilation issues";
       "Ensure all required dependencies are installed";
       "Check for compatibility issues between dependencies" ];
     FailureFix.platformSpecific := None;
     FailureFix.platforms := None |};

  {| FailureFix.type := FailureType.BUILD;
     FailureFix.description := "Update build configuration";
     FailureFix.fixScript := None;
     FailureFix.manualSteps := Some [
       "Review build configuration files for errors or outdated settings";
       "Update build tool versions if necessary";
       "Check for changes in build tool behavior or requirements";
       "Ensure build scripts are compatible with the CI environment" ];
     FailureFix.platformSpecific := None;
     FailureFix.platforms := None |};

  {| FailureFix.type := FailureType.BUILD;
     FailureFix.description := "Clean build cache";
     FailureFix.fixScript := Some
"# Clean build cache
rm -rf node_modules/.cache
rm -rf .next
rm -rf dist
rm -rf build
rm -rf target
rm -rf .gradle
rm -rf .nuget
# Reinstall dependencies
npm ci || yarn install --frozen-lockfile || pnpm install --frozen-lockfile
# Rebuild
npm run build || yarn build || pnpm build";
     FailureFix.manualSteps := Some [
       "Remove build cache directories";
       "Reinstall dependencies from scratch";
       "Rebuild the project" ];
     FailureFix.platformSpecific := None;
     FailureFix.platforms := None |};

  {| FailureFix.type := FailureType.DEPENDENCY;
     FailureFix.description := "Update dependencies";
     FailureFix.fixScript := None;
     FailureFix.manualSteps := Some [
       "Update dependency versions to resolve conflicts";
       "Check for breaking changes in dependencies";
       "Update lockfiles to ensure consistent dependency versions";
       "Consider using dependency resolution or overrides for conflicting dependencies" ];
     FailureFix.platformSpecific := None;
     FailureFix.platforms := None |};

  {| FailureFix.type := FailureType.DEPENDENCY;
     FailureFix.description := "Fix dependency resolution";
     FailureFix.fixScript := Some
"# For npm
npm cache clean --force
rm -rf node_modules
rm -rf package-lock.json
npm install

# For yarn
yarn cache clean
rm -rf node_modules
rm -rf yarn.lock
yarn install

# For pnpm
pnpm store prune
rm -rf node_modules
rm -rf pnpm-lock.yaml
pnpm install";
     FailureFix.manualSteps := Some [
       "Clear package manager cache";
       "Remove node_modules directory and lockfiles";
       "Reinstall dependencies from scratch" ];
     FailureFix.platformSpecific := None;
     FailureFix.platforms := None |};

  {| FailureFix.type := FailureType.DEPENDENCY;
     FailureFix.description := "Use specific dependency versions";
     FailureFix.fixScript := None;
     FailureFix.manualSteps := Some [
       "Pin dependency versions to specific versions known to work";
       "Use lockfiles to ensure consistent dependency versions";
       "Consider using a tool like Renovate or Dependabot to manage dependency updates" ];
     FailureFix.platformSpecific := None;
     FailureFix.platforms := None |};

  {| FailureFix.type := FailureType.RESOURCE;
     FailureFix.description := "Increase resource limits";
     FailureFix.fixScript := None;
     FailureFix.manualSteps := Some [
       "Increase memory limits for build or test processes";
       "Increase disk space allocation for the CI environment";
       "Consider using a larger CI runner or instance type";
       "Split large jobs into smaller ones to reduce resource usage" ];
     FailureFix.platformSpecific := None;
     FailureFix.platforms := None |};

  {| FailureFix.type := FailureType.RESOURCE;
     FailureFix.description := "Optimize resource usage";
     FailureFix.fixScript := None;
     FailureFix.manualSteps := Some [
       "Implement more efficient algorithms or processes";
       "Reduce the scope of tests or builds to use fewer resources";
       "Use incremental builds or tests when possible";
       "Implement caching to reduce resource usage" ];
     FailureFix.platformSpecific := None;
     FailureFix.platforms := None |};

  {| FailureFix.type := FailureType.RESOURCE;
     FailureFix.description := "Clean up unused resources";
     FailureFix.fixScript := Some
("# Remove temporary files and directories
find . -name "
  +:+ dq +:+ "*.tmp"
  +:+ dq +:+ " -delete
find . -name "
  +:+ dq +:+ "*.log"
  +:+ dq +:+ " -delete
# Clean Docker resources
docker system prune -f
# Clean up disk space
df -h
du -sh /* | sort -hr | head -10");
     FailureFix.manualSteps := Some [
       "Remove temporary files and directories";
       "Clean up Docker resources (images, containers, volumes)";
       "Remove build artifacts from previous runs";
       "Implement cleanup steps in the CI pipeline" ];
     FailureFix.platformSpecific := None;
     FailureFix.platforms := None |};

  {| FailureFix.type := FailureType.NETWORK;
     FailureFix.description := "Implement retries for network operations";
     FailureFix.fixScript := None;
     FailureFix.manualSteps := Some [
       "Add retry logic for network operations";
       "Implement exponential backoff for retries";
       "Add timeouts for network operations";
       "Consider using a circuit breaker pattern for unreliable services" ];
     FailureFix.platformSpecific := None;
     FailureFix.platforms := None |};

  {| FailureFix.type := FailureType.NETWORK;
     FailureFix.description := "Use reliable package sources";
     FailureFix.fixScript := None;
     FailureFix.manualSteps := Some [
       "Use reliable package registries or mirrors";
       "Consider using a private package registry";
       "Implement caching for downloaded packages";
       "Add fallback package sources" ];
     FailureFix.platformSpecific := None;
     FailureFix.platforms := None |};

  {| FailureFix.type := FailureType.NETWORK;
     FailureFix.description := "Check service status";
     FailureFix.fixScript := None;
     FailureFix.manualSteps := Some [
       "Check the status of external services being used";
       "Verify that API endpoints are available and responding correctly";
       "Check for service outages or maintenance windows";
       "Consider implementing service mocks for testing" ];
     FailureFix.platformSpecific := None;
     FailureFix.platforms := None |};

  {| FailureFix.type := FailureType.PERMISSION;
     FailureFix.description := "Update permissions";
     FailureFix.fixScript := None;
     FailureFix.manualSteps := Some [
       "Review and update permissions for the CI/CD service account";
       "Ensure the CI/CD service has access to required resources";
       "Check for expired credentials or tokens";
       "Verify that environment variables for authentication are set correctly" ];
     FailureFix.platformSpecific := None;
     FailureFix.platforms := None |};

  {| FailureFix.type := FailureType.PERMISSION;
     FailureFix.description := "Fix file permissions";
     FailureFix.fixScript := Some
("# Make scripts executable
find . -name "
  +:+ dq +:+ "*.sh"
  +:+ dq +:+ " -exec chmod +x {} \;
# Fix common permission issues
chmod -R u+rw .");
     FailureFix.manualSteps := Some [
       "Make scripts executable with chmod +x";
       "Fix file ownership issues";
       "Ensure the CI/CD service has write access to required directories";
       "Check for permission issues in mounted volumes or shared directories" ];
     FailureFix.platformSpecific := None;
     FailureFix.platforms := None |};

  {| FailureFix.type := FailureType.CONFIGURATION;
     FailureFix.description := "Fix configuration syntax";
     FailureFix.fixScript := None;
     FailureFix.manualSteps := Some [
       "Validate configuration files with appropriate linters or validators";
       "Fix syntax errors in YAML, JSON, or other configuration formats";
       "Ensure configuration files follow the required schema";
       "Check for typos or incorrect indentation" ];
     FailureFix.platformSpecific := None;
     FailureFix.platforms := None |};

  {| FailureFix.type := FailureType.CONFIGURATION;
     FailureFix.description := "Update environment variables";
     FailureFix.fixScript := None;
     FailureFix.manualSteps := Some [
       "Ensure all required environment variables are set";
       "Check for typos or incorrect values in environment variables";
       "Verify that secret environment variables are properly configured";
       "Consider using a .env file for local development" ];
     FailureFix.platformSpecific := None;
     FailureFix.platforms := None |};

  {| FailureFix.type := FailureType.TIMEOUT;
     FailureFix.description := "Increase timeouts";
     FailureFix.fixScript := None;
     FailureFix.manualSteps := Some [
       "Increase timeouts for long-running operations";
       "Split long-running jobs into smaller ones";
       "Implement progress reporting for long-running operations";
       "Consider using a different approach for operations that consistently time out" ];
     FailureFix.platformSpecific := None;
     FailureFix.platforms := None |};

  {| FailureFix.type := FailureType.TIMEOUT;
     FailureFix.description := "Optimize performance";
     FailureFix.fixScript := None;
     FailureFix.manualSteps := Some [
       "Identify and optimize slow operations";
       "Implement caching to reduce execution time";
       "Use parallel execution where possible";
       "Consider using more powerful CI runners or instances" ];
     FailureFix.platformSpecific := None;
     FailureFix.platforms := None |}
].

Definition github_fixes : list FailureFix.t := [
  {| FailureFix.type := FailureType.PERMISSION;
     FailureFix.description := "Update GitHub Actions permissions";
     FailureFix.fixScript := None;
     FailureFix.manualSteps := Some [
       ("Check the " +:+ dq +:+ "permissions" +:+ dq +:+ " section in your workflow file");
       "Ensure the GITHUB_TOKEN has the required permissions";
       "Consider using a personal access token (PAT) with appropriate scopes";
       "Update repository settings to allow the required actions" ];
     FailureFix.platformSpecific := Some true;
     FailureFix.platforms := Some ["github"] |};

  {| FailureFix.type := FailureType.RESOURCE;
     FailureFix.description := "Optimize GitHub Actions workflow";
     FailureFix.fixScript := None;
     FailureFix.manualSteps := Some [
       "Use GitHub-hosted runners with more resources";
       "Implement caching for dependencies and build artifacts";
       "Use GitHub Actions' built-in caching mechanism";
       "Split large workflows into multiple jobs" ];
     FailureFix.platformSpecific := Some true;
     FailureFix.platforms := Some ["github"] |};

  {| FailureFix.type := FailureType.CONFIGURATION;
     FailureFix.description := "Fix GitHub Actions workflow syntax";
     FailureFix.fixScript := None;
     FailureFix.manualSteps := Some [
       "Validate workflow YAML syntax";
       "Check for deprecated actions or syntax";
       "Ensure all required inputs for actions are provided";
       "Use the GitHub Actions workflow validator" ];
     FailureFix.platformSpecific := Some true;
     FailureFix.platforms := Some ["github"] |}
].

Definition aws_fixes : list FailureFix.t := [
  {| FailureFix.type := FailureType.PERMISSION;
     FailureFix.description := "Update AWS IAM permissions";
     FailureFix.fixScript := None;
     FailureFix.manualSteps := Some [
       "Review IAM roles and policies for CodePipeline, CodeBuild, and other services";
       "Ensure the service roles have the required permissions";
       "Check for resource-based policies that might be denying access";
       "Verify that cross-account permissions are configured correctly" ];
     FailureFix.platformSpecific := Some true;
     FailureFix.platforms := Some ["aws"] |};

  {| FailureFix.type := FailureType.CONFIGURATION;
     FailureFix.description := "Fix AWS CodePipeline configuration";
     FailureFix.fixScript := None;
     FailureFix.manualSteps := Some [
       "Validate CodePipeline configuration";
       "Check artifact configurations between stages";
       "Ensure all required parameters are provided for actions";
       "Verify that service roles are correctly configured" ];
     FailureFix.platformSpecific := Some true;
     FailureFix.platforms := Some ["aws"] |}
].

Definition gitlab_fixes : list FailureFix.t := [
  {| FailureFix.type := FailureType.RESOURCE;
     FailureFix.description := "Optimize GitLab CI resources";
     FailureFix.fixScript := None;
     FailureFix.manualSteps := Some [
       "Use GitLab runners with more resources";
       "Implement caching for dependencies and build artifacts";
       "Use GitLab CI's built-in caching mechanism";
       "Split large jobs into multiple smaller jobs" ];
     FailureFix.platformSpecific := Some true;
     FailureFix.platforms := Some ["gitlab"] |};

  {| FailureFix.type := FailureType.CONFIGURATION;
     FailureFix.description := "Fix GitLab CI configuration";
     FailureFix.fixScript := None;
     FailureFix.manualSteps := Some [
       "Validate .gitlab-ci.yml syntax";
       "Check for deprecated features or syntax";
       "Ensure all required variables are defined";
       "Use the GitLab CI lint tool to validate configuration" ];
     FailureFix.platformSpecific := Some true;
     FailureFix.platforms := Some ["gitlab"] |}
].

Definition circleci_fixes : list FailureFix.t := [
  {| FailureFix.type := FailureType.RESOURCE;
     FailureFix.description := "Optimize CircleCI resources";
     FailureFix.fixScript := None;
     FailureFix.manualSteps := Some [
       "Use a larger resource class for jobs";
       "Implement caching for dependencies and build artifacts";
       "Use CircleCI's built-in caching mechanism";
       "Split large jobs into multiple smaller jobs" ];
     FailureFix.platformSpecific := Some true;
     FailureFix.platforms := Some ["circleci"] |};

  {| FailureFix.type := FailureType.CONFIGURATION;
     FailureFix.description := "Fix CircleCI configuration";
     FailureFix.fixScript := None;
     FailureFix.manualSteps := Some [
       "Validate config.yml syntax";
       "Check for deprecated features or syntax";
       "Ensure all required parameters are provided for orbs and executors";
       "Use the CircleCI config validator to validate configuration" ];
     FailureFix.platformSpecific := Some true;
     FailureFix.platforms := Some ["circleci"] |}
].


(** [PLATFORM_FIXES: Record<CIPlatform, FailureFix[]>]. *)
Definition PLATFORM_FIXES : gmap string (list FailureFix.t) :=
  list_to_map [
    ("github", github_fixes);
    ("aws", aws_fixes);
    ("gitlab", gitlab_fixes);
    ("circleci", circleci_fixes)
  ].

(* ===================================================================== *)
(** ** The failure analyzer ([analyzer.ts], class [FailureAnalyzer]) *)
(* ===================================================================== *)

(** [Array.prototype.sort(comparefn)]: a stable sort. The comparator returns
    a number, [None] standing for [NaN], which the sort reads as [+0].
    Elements are inserted from the right, each before the first element it
    does not come after. *)
Section ArraySort.
Context {A : Type} (comparefn : A -> A -> option Z).

Definition sortCompare (x y : A) : Z := default 0 (comparefn x y).

Fixpoint sortInsert (x : A) (l : list A) : list A :=
  match l with
  | [] => [x]
  | y :: l' =>
      if sortCompare x y <=? 0 then x :: y :: l' else y :: sortInsert x l'
  end.

Fixpoint sort (l : list A) : list A :=
  match l with
  | [] => []
  | x :: l' => sortInsert x (sort l')
  end.
End ArraySort.

(** Truthiness of an optional boolean property ([undefined] is falsy). *)
Definition truthy (b : option bool) : bool := default false b.

(** [!!s] for an optional string property: the empty string is falsy. *)
Definition truthyString (s : option string) : bool :=
  match s with
  | Some EmptyString => false
  | Some _ => true
  | None => false
  end.

Module FailureAnalyzer.
Section WithOptions.

(** [this.options] *)
Variable options : SelfHealingOptions.t.

(** The pattern of [extractLocation]. *)
Definition fileLineRegex : RegExp.t :=
  RegExp.mk "([a-zA-Z0-9_\-/.]+):(\d+)(?::(\d+))?" false
    (cat [Group (Plus (Class false [range "a" "z"; range "A" "Z";
            range "0" "9"; one "_"; one "-"; one "/"; one "."]));
          Lit ":"; Group (Plus Digit);
          Opt (Group (cat [Lit ":"; Group (Plus Digit)]))]).

Definition extractLocation (log matchedText : jsstring) : option jsstring :=
  let matchIndex := JS.indexOf log matchedText in
  let startIndex := Z.max 0 (matchIndex - 200) in
  let endIndex :=
    Z.min (JS.length log) (matchIndex + JS.length matchedText + 200) in
  let context := JS.substring log startIndex endIndex in
  RegExp.match_ context fileLineRegex.

(** The patterns to check: the common ones, then those of the platform. *)
Definition patterns : list FailurePattern.t :=
  FAILURE_PATTERNS ++
  default [] (PLATFORM_FAILURE_PATTERNS !! SelfHealingOptions.platform options).

(** The failure pushed when [regex] of [pattern] matches the log. *)
Definition detect (log : jsstring) (pattern : FailurePattern.t)
    (regex : RegExp.t) : option DetectedFailure.t :=
  match RegExp.match_ log regex with
  | Some matched =>
      Some {| DetectedFailure.type := FailurePattern.type pattern;
              DetectedFailure.severity := FailurePattern.severity pattern;
              DetectedFailure.message := matched;
              DetectedFailure.matchedPattern := RegExp.toString regex;
              DetectedFailure.description :=
                FailurePattern.description pattern;
              DetectedFailure.location := extractLocation log matched |}
  | None => None
  end.

(** The two nested loops of [analyzeFailure]. *)
Definition detectedFailures (log : jsstring) : list DetectedFailure.t :=
  flat_map
    (fun pattern => omap (detect log pattern) (FailurePattern.patterns pattern))
    patterns.

Definition unknownFailure : DetectedFailure.t :=
  {| DetectedFailure.type := FailureType.UNKNOWN;
     DetectedFailure.severity := FailureSeverity.MEDIUM;
     DetectedFailure.message := js "Unknown failure";
     DetectedFailure.matchedPattern := "";
     DetectedFailure.description :=
       "Could not determine the specific cause of failure";
     DetectedFailure.location := None |}.

(** The object literal [severityOrder]; [None] is [undefined]. *)
Definition severityOrder (severity : FailureSeverity) : option Z :=
  if String.eqb severity FailureSeverity.CRITICAL then Some 0
  else if String.eqb severity FailureSeverity.HIGH then Some 1
  else if String.eqb severity FailureSeverity.MEDIUM then Some 2
  else if String.eqb severity FailureSeverity.LOW then Some 3
  else None.

(** [severityOrder[a.severity] - severityOrder[b.severity]] *)
Definition bySeverity (a b : DetectedFailure.t) : option Z :=
  match severityOrder (DetectedFailure.severity a),
        severityOrder (DetectedFailure.severity b) with
  | Some x, Some y => Some (x - y)
  | _, _ => None
  end.

Definition sortFailuresBySeverity (failures : list DetectedFailure.t)
    : list DetectedFailure.t :=
  sort bySeverity failures.

(** The list before sorting: the detected failures, or the unknown one. *)
Definition collectedFailures (log : jsstring) : list DetectedFailure.t :=
  let detected := detectedFailures log in
  if (List.length detected =? 0)%nat then detected ++ [unknownFailure]
  else detected.

Definition analyzeFailure (log : jsstring) : list DetectedFailure.t :=
  sortFailuresBySeverity (collectedFailures log).

Definition getFixesForFailure (failure : DetectedFailure.t)
    : list FailureFix.t :=
  let commonFixes :=
    List.filter
      (fun fix_ => String.eqb (FailureFix.type fix_) (DetectedFailure.type failure))
      COMMON_FIXES in
  let platformFixes :=
    match PLATFORM_FIXES !! SelfHealingOptions.platform options with
    | Some fixes =>
        List.filter
          (fun fix_ =>
             String.eqb (FailureFix.type fix_) (DetectedFailure.type failure)
             && truthy (FailureFix.platformSpecific fix_)
             && match FailureFix.platforms fix_ with
                | Some ps =>
                    existsb (String.eqb (SelfHealingOptions.platform options)) ps
                | None => false
                end)
          fixes
    | None => []
    end in
  commonFixes ++ platformFixes.

(** The [switch] on the severity. *)
Definition baseConfidence (severity : FailureSeverity) : Z :=
  if String.eqb severity FailureSeverity.CRITICAL then 90
  else if String.eqb severity FailureSeverity.HIGH then 75
  else if String.eqb severity FailureSeverity.MEDIUM then 60
  else if String.eqb severity FailureSeverity.LOW then 40
  else 30.

Definition calculateConfidence (failure : DetectedFailure.t)
    (fixes : list FailureFix.t) : Z :=
  let confidence := baseConfidence (DetectedFailure.severity failure) in
  let confidence :=
    if (List.length fixes =? 0)%nat then confidence - 20
    else if (3 <? List.length fixes)%nat then confidence - 10
    else confidence in
  let confidence :=
    if String.eqb (DetectedFailure.type failure) FailureType.UNKNOWN
    then confidence - 30 else confidence in
  let confidence :=
    if existsb (fun fix_ => truthy (FailureFix.platformSpecific fix_)) fixes
    then confidence + 10 else confidence in
  Z.max 0 (Z.min 100 confidence).

Definition suggestFix (failure : DetectedFailure.t) : FixSuggestion.t :=
  let fixes := getFixesForFailure failure in
  let autoFixPossible :=
    existsb (fun fix_ => truthyString (FailureFix.fixScript fix_)) fixes in
  let confidence := calculateConfidence failure fixes in
  {| FixSuggestion.failure := failure;
     FixSuggestion.fixes := fixes;
     FixSuggestion.autoFixPossible := autoFixPossible;
     FixSuggestion.confidence := confidence |}.

Definition suggestFixes (failures : list DetectedFailure.t)
    : list FixSuggestion.t :=
  map suggestFix failures.

End WithOptions.
End FailureAnalyzer.

(* ===================================================================== *)
(** ** The self-healing manager ([manager.ts], class [SelfHealingManager]) *)
(* ===================================================================== *)

Module Vulnerability.
Record t : Type := {
  type : string;
  description : string;
  severity : string;
  recommendation : string
}.
End Vulnerability.

Module SelfHealingReport.
Record t : Type := {
  vulnerabilities : list Vulnerability.t;
  recommendations : list string;
  selfHealingScore : Z
}.
End SelfHealingReport.

Module SelfHealingManager.

Import SelfHealingReport.

(** *** [generateSelfHealingReport] *)

(** The three locals of the function as it starts. *)
Definition emptyReport : SelfHealingReport.t :=
  {| vulnerabilities := []; recommendations := []; selfHealingScore := 100 |}.

(** The body of every check that fires: [vulnerabilities.push(v)],
    [selfHealingScore -= penalty], [recommendations.push(text)]. *)
Definition flag (v : Vulnerability.t) (penalty : Z) (text : string)
    (r : SelfHealingReport.t) : SelfHealingReport.t :=
  {| vulnerabilities := vulnerabilities r ++ [v];
     recommendations := recommendations r ++ [text];
     selfHealingScore := selfHealingScore r - penalty |}.

Definition missingRetry (description recommendation : string)
    : Vulnerability.t :=
  {| Vulnerability.type := "Missing Retry Mechanism";
     Vulnerability.description := description;
     Vulnerability.severity := "Medium";
     Vulnerability.recommendation := recommendation |}.

Definition missingCaching (recommendation : string) : Vulnerability.t :=
  {| Vulnerability.type := "Missing Caching";
     Vulnerability.description :=
       "No caching mechanism found for dependencies or build artifacts";
     Vulnerability.severity := "Low";
     Vulnerability.recommendation := recommendation |}.

Definition missingTimeout : Vulnerability.t :=
  {| Vulnerability.type := "Missing Timeout Configuration";
     Vulnerability.description :=
       "No timeout configuration found for jobs or steps";
     Vulnerability.severity := "Low";
     Vulnerability.recommendation :=
       "Add appropriate timeout configuration to prevent hanging jobs" |}.

Definition has (pipelineContent : jsstring) (marker : string) : bool :=
  JS.includes pipelineContent (js marker).

(** The [switch (platform)]: no [default] case. *)
Definition platformChecks (platform : CIPlatform) (pipelineContent : jsstring)
    (r : SelfHealingReport.t) : SelfHealingReport.t :=
  if String.eqb platform "github" then
    let r :=
      if negb (has pipelineContent "continue-on-error")
         && negb (has pipelineContent "retry")
      then flag
             (missingRetry
                "No retry mechanism found for potentially flaky steps"
                "Add continue-on-error: true for non-critical steps or implement retry logic")
             15 "Add retry mechanisms for potentially flaky steps" r
      else r in
    if negb (has pipelineContent "actions/cache")
    then flag
           (missingCaching
              "Use actions/cache to cache dependencies and build artifacts")
           10 "Implement caching for dependencies and build artifacts" r
    else r
  else if String.eqb platform "gitlab" then
    let r :=
      if negb (has pipelineContent "retry:")
      then flag
             (missingRetry
                "No retry mechanism found for potentially flaky jobs"
                "Add retry configuration for jobs that might be flaky")
             15 "Add retry configuration for potentially flaky jobs" r
      else r in
    if negb (has pipelineContent "cache:")
    then flag
           (missingCaching
              "Use GitLab CI caching to cache dependencies and build artifacts")
           10 "Implement caching for dependencies and build artifacts" r
    else r
  else if String.eqb platform "circleci" then
    let r :=
      if negb (has pipelineContent "when: on_fail")
         && negb (has pipelineContent "no_output_timeout:")
      then flag
             (missingRetry
                "No retry mechanism or failure handling found"
                "Add when: on_fail conditions or implement retry logic")
             15 "Add failure handling mechanisms" r
      else r in
    if negb (has pipelineContent "save_cache")
       && negb (has pipelineContent "restore_cache")
    then flag
           (missingCaching
              "Use CircleCI caching to cache dependencies and build artifacts")
           10 "Implement caching for dependencies and build artifacts" r
    else r
  else if String.eqb platform "aws" then
    if negb (has pipelineContent "RetryCount")
       && negb (has pipelineContent "RetryMode")
    then flag
           (missingRetry
              "No retry mechanism found for potentially flaky steps"
              "Add retry configuration for CodeBuild projects or Lambda functions")
           15 "Add retry configuration for potentially flaky steps" r
    else r
  else r.

(** The check made for all platforms. *)
Definition timeoutCheck (pipelineContent : jsstring)
    (r : SelfHealingReport.t) : SelfHealingReport.t :=
  if negb (has pipelineContent "timeout")
     && negb (has pipelineContent "Timeout")
     && negb (has pipelineContent "time-out")
     && negb (has pipelineContent "TimeoutInMinutes")
  then flag missingTimeout 5 "Add timeout configuration for jobs and steps" r
  else r.

Definition generateSelfHealingReport (platform : CIPlatform)
    (pipelineContent : jsstring) : SelfHealingReport.t :=
  let r := platformChecks platform pipelineContent emptyReport in
  let r := timeoutCheck pipelineContent r in
  {| vulnerabilities := vulnerabilities r;
     recommendations := recommendations r;
     selfHealingScore := Z.max 0 (Z.min 100 (selfHealingScore r)) |}.

(** *** The outside world of [attemptFix]

    The manager writes files, starts a subprocess and reads the clock.
    The world holds the files and the console; what lies outside the
    program (the temporary directory, which file-system calls fail, what
    the subprocess does) is an environment [Env]. A computation takes the
    world and gives the new world with a value or a thrown error. *)

Module FixAttemptRecord.
Record t : Type := {
  timestamp : string;
  platform : CIPlatform;
  failure : DetectedFailure.t;
  fixes : list FailureFix.t;
  success : bool;
  output : string;
  error : string
}.
End FixAttemptRecord.

Inductive FileData : Type :=
  | Text (data : string)
  | Json (record : FixAttemptRecord.t).

Record File : Type := { data : FileData; mode : string }.

Record World : Type := {
  files : gmap string File;
  clock : Z;
  console : list string
}.

Inductive FsCall : Type :=
  | WriteFile (path : string)
  | Chmod (path : string)
  | Remove (path : string)
  | EnsureDir (path : string)
  | WriteJson (path : string).

Record Env : Type := {
  tmpdir : string;                       (* os.tmpdir() *)
  homedir : string;                      (* os.homedir() *)
  toISOString : Z -> string;             (* Date.prototype.toISOString *)
  fault : FsCall -> World -> option string;
      (* the error a file-system call throws in this world, if any *)
  child : string -> string -> World -> World * (string * string + string)
      (* exec(command, {cwd}): what the subprocess does to the world, and
         its stdout and stderr, or the error of a failed command *)
}.

Definition M (A : Type) : Type := World -> World * (A + string).

#[local] Instance M_ret : MRet M := fun A a w => (w, inl a).
#[local] Instance M_bind : MBind M := fun A B f c w =>
  match c w with
  | (w', inl a) => f a w'
  | (w', inr e) => (w', inr e)
  end.

(** [try { body } catch (error) { handler }] *)
Definition tryCatch {A : Type} (body : M A) (handler : string -> M A) : M A :=
  fun w =>
    match body w with
    | (w', inl a) => (w', inl a)
    | (w', inr e) => handler e w'
    end.

Definition setFiles (f : gmap string File -> gmap string File) (w : World)
    : World :=
  {| files := f (files w); clock := clock w; console := console w |}.

Definition fsCall (env : Env) (call : FsCall)
    (effect : gmap string File -> gmap string File) : M unit :=
  fun w =>
    match fault env call w with
    | Some e => (w, inr e)
    | None => (setFiles effect w, inl tt)
    end.

Definition store (path : string) (d : FileData) (fs : gmap string File)
    : gmap string File :=
  <[path := {| data := d; mode := default "644" (mode <$> fs !! path) |}]> fs.

Definition writeFile (env : Env) (path data : string) : M unit :=
  fsCall env (WriteFile path) (store path (Text data)).

Definition chmod (env : Env) (path mode' : string) : M unit :=
  fun w =>
    match files w !! path with
    | None => (w, inr ("ENOENT: no such file or directory, chmod " +:+ path))
    | Some f =>
        fsCall env (Chmod path)
          (<[path := {| data := data f; mode := mode' |}]>) w
    end.

Definition remove (env : Env) (path : string) : M unit :=
  fsCall env (Remove path) (delete path).

Definition ensureDir (env : Env) (path : string) : M unit :=
  fsCall env (EnsureDir path) id.

Definition writeJson (env : Env) (path : string) (r : FixAttemptRecord.t)
    : M unit :=
  fsCall env (WriteJson path) (store path (Json r)).

Definition execAsync (env : Env) (command cwd : string)
    : M (string * string) :=
  child env command cwd.

Definition now : M Z := fun w => (w, inl (clock w)).

Definition consoleError (text : string) : M unit :=
  fun w =>
    ({| files := files w; clock := clock w;
        console := console w ++ [text] |}, inl tt).

(** [path.join] of simple segments. *)
Definition join (dir name : string) : string := dir +:+ "/" +:+ name.

(** [s.replace(/[:.]/g, '-')] *)
Fixpoint dashes (s : string) : string :=
  match s with
  | EmptyString => EmptyString
  | String c s' =>
      String (if Ascii.eqb c ":" || Ascii.eqb c "." then "-"%char else c)
             (dashes s')
  end.

Module AttemptResult.
Record t : Type := {
  success : bool;
  message : string;
  output : option string;
  error : option string
}.
End AttemptResult.

Section WithManager.

Variable env : Env.
(** [this.options] *)
Variable options : SelfHealingOptions.t.

(** [this.logDir] *)
Definition logDir : string :=
  join (join (join (homedir env) ".qforge") "logs") "self-healing".

Definition logFixAttempt (suggestion : FixSuggestion.t) (success : bool)
    (output error : string) : M unit :=
  tryCatch
    (ensureDir env logDir ;;
     t ← now ;
     let timestamp := dashes (toISOString env t) in
     let filename := "fix-attempt-" +:+ timestamp +:+ ".json" in
     let filePath := join logDir filename in
     t' ← now ;
     writeJson env filePath
       {| FixAttemptRecord.timestamp := toISOString env t';
          FixAttemptRecord.platform := SelfHealingOptions.platform options;
          FixAttemptRecord.failure := FixSuggestion.failure suggestion;
          FixAttemptRecord.fixes := FixSuggestion.fixes suggestion;
          FixAttemptRecord.success := success;
          FixAttemptRecord.output := output;
          FixAttemptRecord.error := error |})
    (fun error => consoleError ("Failed to log fix attempt: " +:+ error)).

(** The name of the temporary script made at time [t]. *)
Definition scriptFileAt (t : Z) : string :=
  join (tmpdir env) ("qforge-fix-" +:+ pretty t +:+ ".sh").

Definition attemptFix (suggestion : FixSuggestion.t) (workingDir : string)
    : M AttemptResult.t :=
  if negb (FixSuggestion.autoFixPossible suggestion) then
    mret {| AttemptResult.success := false;
            AttemptResult.message :=
              "No automatic fix available for this failure";
            AttemptResult.output := None;
            AttemptResult.error := None |}
  else
    match
      List.find (fun f => truthyString (FailureFix.fixScript f))
                (FixSuggestion.fixes suggestion)
    with
    | None =>
        mret {| AttemptResult.success := false;
                AttemptResult.message := "No fix script available";
                AttemptResult.output := None;
                AttemptResult.error := None |}
    | Some fix_ =>
        let fixScript := default "" (FailureFix.fixScript fix_) in
        tryCatch
          (t ← now ;
           let scriptFile := scriptFileAt t in
           writeFile env scriptFile fixScript ;;
           chmod env scriptFile "755" ;;
           '(stdout, stderr) ←
             execAsync env ("bash " +:+ dq +:+ scriptFile +:+ dq) workingDir ;
           remove env scriptFile ;;
           logFixAttempt suggestion true stdout stderr ;;
           mret {| AttemptResult.success := true;
                   AttemptResult.message :=
                     "Successfully applied fix: "
                       +:+ FailureFix.description fix_;
                   AttemptResult.output := Some stdout;
                   AttemptResult.error := Some stderr |})
          (fun error =>
             logFixAttempt suggestion false "" error ;;
             mret {| AttemptResult.success := false;
                     AttemptResult.message :=
                       "Failed to apply fix: " +:+ error;
                     AttemptResult.output := None;
                     AttemptResult.error := Some error |})
    end.

End WithManager.

End SelfHealingManager.

(* ===================================================================== *)
(** ** The vocabulary of the properties *)
(* ===================================================================== *)

Import FailureAnalyzer SelfHealingManager SelfHealingReport.

(** Order by a rank. *)
Definition byRank {A : Type} (rank : A -> Z) (x y : A) : Prop :=
  rank x <= rank y.

(** *** The catalog and the analyzer

    The severities the catalog uses. *)
Definition catalogSeverity (s : FailureSeverity) : Prop :=
  s = FailureSeverity.HIGH \/ s = FailureSeverity.MEDIUM
  \/ s = FailureSeverity.LOW.

#[local] Instance catalogSeverity_dec s : Decision (catalogSeverity s) :=
  ltac:(unfold catalogSeverity; apply _).

Definition patternsOK (l : list FailurePattern.t) : Prop :=
  Forall (fun p => catalogSeverity (FailurePattern.severity p)) l.

(** No fix of the catalog is for the [UNKNOWN] type. *)
Definition fixesKnown (l : list FailureFix.t) : Prop :=
  Forall (fun f => String.eqb (FailureFix.type f) FailureType.UNKNOWN = false) l.

(** Decide a closed decidable proposition by evaluation. *)
Ltac by_evaluation :=
  cbv delta [patternsOK fixesKnown];
  refine (bool_decide_unpack _ _); vm_compute; exact I.

(** No matcher of any pattern the analyzer runs matches the log. *)
Definition noMatcherMatches (options : SelfHealingOptions.t) (log : jsstring)
    : Prop :=
  Forall
    (fun pattern =>
       Forall (fun regex => RegExp.match_ log regex = None)
              (FailurePattern.patterns pattern))
    (patterns options).

(** Rank of a failure in the presentation order. *)
Definition rankOf (f : DetectedFailure.t) : Z :=
  default 0 (severityOrder (DetectedFailure.severity f)).

Definition ranked (f : DetectedFailure.t) : Prop :=
  is_Some (severityOrder (DetectedFailure.severity f)).

(** *** Order and confidence

    Presentation order of the severities, most severe first. *)
Definition presentationOrder : list FailureSeverity :=
  [FailureSeverity.CRITICAL; FailureSeverity.HIGH;
   FailureSeverity.MEDIUM; FailureSeverity.LOW].

(** [a] is presented no later than [b]. *)
Definition notLessSevere (a b : FailureSeverity) : Prop :=
  exists i j : nat,
    presentationOrder !! i = Some a /\ presentationOrder !! j = Some b
    /\ (i <= j)%nat.

Definition hasSeverity (s : FailureSeverity) (f : DetectedFailure.t) : bool :=
  String.eqb (DetectedFailure.severity f) s.

(** The confidence as the specification words it: a base by severity, four
    independent adjustments, then the clamp. *)
Definition specBase (severity : FailureSeverity) : Z :=
  if decide (severity = FailureSeverity.CRITICAL) then 90
  else if decide (severity = FailureSeverity.HIGH) then 75
  else if decide (severity = FailureSeverity.MEDIUM) then 60
  else if decide (severity = FailureSeverity.LOW) then 40
  else 30.

Definition isPlatformSpecific (f : FailureFix.t) : Prop :=
  FailureFix.platformSpecific f = Some true.

#[local] Instance isPlatformSpecific_dec f : Decision (isPlatformSpecific f) :=
  ltac:(unfold isPlatformSpecific; apply _).

Definition specRawConfidence (failure : DetectedFailure.t)
    (fixes : list FailureFix.t) : Z :=
  specBase (DetectedFailure.severity failure)
  - (if decide (List.length fixes = 0%nat) then 20 else 0)
  - (if decide (3 < List.length fixes)%nat then 10 else 0)
  - (if decide (DetectedFailure.type failure = FailureType.UNKNOWN)
     then 30 else 0)
  + (if decide (Exists isPlatformSpecific fixes) then 10 else 0).

Definition clamp (lo hi x : Z) : Z :=
  if decide (x < lo) then lo else if decide (hi < x) then hi else x.

Definition specConfidence (failure : DetectedFailure.t)
    (fixes : list FailureFix.t) : Z :=
  clamp 0 100 (specRawConfidence failure fixes).

(** A Low failure of type Unknown. *)
Definition lowUnknownFailure : DetectedFailure.t :=
  {| DetectedFailure.type := FailureType.UNKNOWN;
     DetectedFailure.severity := FailureSeverity.LOW;
     DetectedFailure.message := js "Unknown failure";
     DetectedFailure.matchedPattern := "";
     DetectedFailure.description := "";
     DetectedFailure.location := None |}.

Definition scenarioLog : jsstring :=
  js "FAIL src/x.test.js ... expect(fn()).toHaveBeenCalledTimes(1)".

(** *** The logs of the repository's tests ([tests/self-healing.test.ts]) *)

Definition testFailureLog : jsstring := js "
        Running tests...
        FAIL src/components/Button.test.js
          Button component
            ✓ renders correctly (23ms)
            ✕ handles click events (45ms)
            
        ● Button component › handles click events
        
        expect(jest.fn()).toHaveBeenCalledTimes(1)
        
        Expected number of calls: 1
        Received number of calls: 0
      ".

Definition dependencyLog : jsstring := js ("
        npm ERR! code ERESOLVE
        npm ERR! ERESOLVE could not resolve dependency tree
        npm ERR! 
        npm ERR! While resolving: my-app@1.0.0
        npm ERR! Found: react@17.0.2
        npm ERR! node_modules/react
        npm ERR!   react@" +:+ dq +:+ "^17.0.0" +:+ dq +:+ " from the root project
        npm ERR! 
        npm ERR! Could not resolve dependency:
        npm ERR! peer react@" +:+ dq +:+ "^18.0.0" +:+ dq +:+ " from react-dom@18.0.0
        npm ERR! node_modules/react-dom
        npm ERR!   react-dom@" +:+ dq +:+ "^18.0.0" +:+ dq +:+ " from the root project
      ").

Definition resourceLog : jsstring := js "
        <--- Last few GCs --->
        
        [46501:0x5612a3c9c000]   138169 ms: Mark-sweep 1386.5 (1439.8) -> 1386.2 (1439.8) MB, 999.8 / 0.0 ms  (average mu = 0.176, current mu = 0.138) allocation failure scavenge might not succeed
        [46501:0x5612a3c9c000]   139169 ms: Mark-sweep 1386.9 (1439.8) -> 1386.6 (1439.8) MB, 999.6 / 0.0 ms  (average mu = 0.139, current mu = 0.138) allocation failure scavenge might not succeed
        
        <--- JS stacktrace --->
        
        FATAL ERROR: Reached heap limit Allocation failed - JavaScript heap out of memory
      ".

(** What the tests look at: type and severity of the first failure. *)
Definition firstFailure (l : list DetectedFailure.t)
    : option (FailureType * FailureSeverity) :=
  (fun f => (DetectedFailure.type f, DetectedFailure.severity f)) <$> head l.

(** *** The report

    The markers the report looks for, by platform, as the specification
    enumerates them; no caching marker exists for [aws]. *)
Definition retryMarkers (platform : CIPlatform) : list string :=
  if String.eqb platform "github" then ["continue-on-error"; "retry"]
  else if String.eqb platform "gitlab" then ["retry:"]
  else if String.eqb platform "circleci"
       then ["when: on_fail"; "no_output_timeout:"]
  else if String.eqb platform "aws" then ["RetryCount"; "RetryMode"]
  else [].

Definition cachingMarkers (platform : CIPlatform) : list string :=
  if String.eqb platform "github" then ["actions/cache"]
  else if String.eqb platform "gitlab" then ["cache:"]
  else if String.eqb platform "circleci" then ["save_cache"; "restore_cache"]
  else [].

Definition timeoutMarkers : list string :=
  ["timeout"; "Timeout"; "time-out"; "TimeoutInMinutes"].

Definition supportedPlatforms : list CIPlatform :=
  ["github"; "gitlab"; "circleci"; "aws"].

(** None of the markers occurs in the text. *)
Definition allAbsent (text : jsstring) (markers : list string) : bool :=
  forallb (fun marker => negb (JS.includes text (js marker))) markers.

(** The report has a vulnerability of the given type. *)
Definition reports (type : string) (r : SelfHealingReport.t) : bool :=
  existsb (fun v => String.eqb (Vulnerability.type v) type)
          (SelfHealingReport.vulnerabilities r).

Definition deduction (fired : bool) (penalty : Z) : Z :=
  if fired then penalty else 0.

(** Both platform checks are applied to the text: a check fires exactly
    when all its markers are absent, and the score is 100 less 15 for the
    retry check, 10 for the caching check and 5 for the timeout check. *)
Definition bothChecksApplied (platform : CIPlatform) (text : jsstring) : Prop :=
  let r := SelfHealingManager.generateSelfHealingReport platform text in
  reports "Missing Retry Mechanism" r = allAbsent text (retryMarkers platform)
  /\ reports "Missing Caching" r = allAbsent text (cachingMarkers platform)
  /\ SelfHealingReport.selfHealingScore r
     = 100 - deduction (allAbsent text (retryMarkers platform)) 15
           - deduction (allAbsent text (cachingMarkers platform)) 10
           - deduction (allAbsent text timeoutMarkers) 5.

(** Only the retry check is applied: no caching vulnerability, no
    deduction of 10. *)
Definition retryCheckOnly (platform : CIPlatform) (text : jsstring) : Prop :=
  let r := SelfHealingManager.generateSelfHealingReport platform text in
  reports "Missing Retry Mechanism" r = allAbsent text (retryMarkers platform)
  /\ reports "Missing Caching" r = false
  /\ SelfHealingReport.selfHealingScore r
     = 100 - deduction (allAbsent text (retryMarkers platform)) 15
           - deduction (allAbsent text timeoutMarkers) 5.



(** Case analysis on every marker test of the goal. *)
Ltac markers :=
  unfold has;
  repeat match goal with
         | |- context [JS.includes ?t ?m] =>
             generalize (JS.includes t m); intros []
         end.

(** The same, decided over all outcomes of the marker tests at once. *)
Ltac all_markers :=
  unfold has;
  repeat match goal with
         | |- context [JS.includes ?t ?m] => generalize (JS.includes t m)
         end;
  refine (bool_decide_unpack _ _); vm_compute; exact I.


(** *** Fix attempts

    The script [attemptFix] runs: that of the first fix which has one. *)
Definition firstScript (suggestion : FixSuggestion.t) : option string :=
  fix_ ← List.find (fun f => truthyString (FailureFix.fixScript f))
                   (FixSuggestion.fixes suggestion);
  FailureFix.fixScript fix_.

(** No call to the file system fails. *)
Definition faultless (env : Env) : Prop :=
  forall call w, fault env call w = None.

(** Every command fails with [error] and leaves the world as it is. *)
Definition commandFails (env : Env) (error : string) : Prop :=
  forall command cwd w, child env command cwd w = (w, inr error).

(** Every command succeeds with the given output and leaves the world as
    it is. *)
Definition commandSucceeds (env : Env) (stdout stderr : string) : Prop :=
  forall command cwd w, child env command cwd w = (w, inl (stdout, stderr)).

(** The file [logFixAttempt] writes at time [t]. *)
Definition fixAttemptFile (env : Env) (t : Z) : string :=
  join (logDir env)
       ("fix-attempt-" +:+ dashes (toISOString env t) +:+ ".json").

(** An environment in which the script exits with a failure. *)
Definition failingEnv : Env :=
  {| tmpdir := "/tmp";
     homedir := "/home/ci";
     toISOString := fun t => pretty t;
     fault := fun _ _ => None;
     child := fun command cwd w => (w, inr "Command failed: exit code 1") |}.

Definition startWorld : World :=
  {| files := ∅; clock := 1700000000000; console := [] |}.

(** A build failure; its fixes include the script [Clean build cache]. *)
Definition buildFailure : DetectedFailure.t :=
  {| DetectedFailure.type := FailureType.BUILD;
     DetectedFailure.severity := FailureSeverity.HIGH;
     DetectedFailure.message := js "build failed";
     DetectedFailure.matchedPattern := "/build\s+failed/i";
     DetectedFailure.description := "Build or compilation process failed";
     DetectedFailure.location := None |}.

Definition buildSuggestion : FixSuggestion.t :=
  suggestFix DEFAULT_SELF_HEALING_OPTIONS buildFailure.

(* ===================================================================== *)
(** ** Properties of the array sort *)
(* ===================================================================== *)

Section ArraySortFacts.
Context {A : Type} (comparefn : A -> A -> option Z).
(** The comparator is a difference of ranks on the elements in [P]. *)
Variables (P : A -> Prop) (rank : A -> Z).
Hypothesis comparefn_rank :
  forall x y, P x -> P y -> comparefn x y = Some (rank x - rank y).

Lemma sortInsert_perm x l : sortInsert comparefn x l ≡ₚ x :: l.
Proof.
  induction l as [|y l IH]; simpl; [done|].
  destruct (sortCompare comparefn x y <=? 0); [done|].
  rewrite IH. apply Permutation_swap.
Qed.

Lemma sort_perm l : sort comparefn l ≡ₚ l.
Proof.
  induction l as [|x l IH]; simpl; [done|].
  by rewrite sortInsert_perm, IH.
Qed.

Lemma sortCompare_rank x y :
  P x -> P y -> sortCompare comparefn x y = rank x - rank y.
Proof. intros Hx Hy. unfold sortCompare. by rewrite comparefn_rank. Qed.

Lemma sortInsert_sorted x l :
  P x -> Forall P l ->
  StronglySorted (byRank rank) l ->
  StronglySorted (byRank rank) (sortInsert comparefn x l).
Proof.
  intros Hx HP Hs. induction Hs as [|y l Hs IH Hy]; simpl.
  - repeat constructor.
  - apply Forall_cons in HP as [HPy HPl].
    rewrite sortCompare_rank by done.
    destruct (Z.leb_spec (rank x - rank y) 0) as [Hle|Hgt].
    + constructor; [by constructor|].
      constructor; [unfold byRank; lia|].
      eapply Forall_impl; [exact Hy|]. unfold byRank. intros z Hz. lia.
    + constructor; [by apply IH|].
      rewrite sortInsert_perm. constructor; [unfold byRank; lia|done].
Qed.

Lemma sort_sorted l :
  Forall P l -> StronglySorted (byRank rank) (sort comparefn l).
Proof.
  induction 1 as [|x l Hx Hl IH]; simpl; [constructor|].
  apply sortInsert_sorted; [done| |done].
  by rewrite sort_perm.
Qed.

(** Stability: a class [q] of elements of one rank keeps its order. *)
Lemma sortInsert_filter (q : A -> bool) x l :
  (forall a b, P a -> P b -> q a = true -> q b = true -> rank a = rank b) ->
  P x -> Forall P l ->
  List.filter q (sortInsert comparefn x l) = List.filter q (x :: l).
Proof.
  intros Hq Hx HP. induction HP as [|y l Hy Hl IH]; [done|].
  cbn [sortInsert]. rewrite sortCompare_rank by done.
  destruct (Z.leb_spec (rank x - rank y) 0) as [Hle|Hgt]; [done|].
  cbn [List.filter] in *. rewrite IH.
  destruct (q y) eqn:Ey, (q x) eqn:Ex; try done.
  specialize (Hq x y Hx Hy Ex Ey). lia.
Qed.

Lemma sort_filter (q : A -> bool) l :
  (forall a b, P a -> P b -> q a = true -> q b = true -> rank a = rank b) ->
  Forall P l ->
  List.filter q (sort comparefn l) = List.filter q l.
Proof.
  intros Hq HP. induction HP as [|x l Hx Hl IH]; [done|].
  cbn [sort]. rewrite sortInsert_filter; [|done|done|by rewrite sort_perm].
  cbn [List.filter]. by rewrite IH.
Qed.

(** A sorted list is determined by its classes of equal rank: every stable
    sort gives the list [sort] gives. *)
Lemma stable_sorted_unique l1 l2 :
  StronglySorted (byRank rank) l1 -> StronglySorted (byRank rank) l2 ->
  (forall r, List.filter (fun a => rank a =? r) l1
             = List.filter (fun a => rank a =? r) l2) ->
  l1 = l2.
Proof.
  intros Hs1. revert l2.
  induction Hs1 as [|x l1 Hs1 IH Hx]; intros l2 Hs2 Hf.
  - destruct l2 as [|y l2]; [done|].
    specialize (Hf (rank y)). simpl in Hf. by rewrite Z.eqb_refl in Hf.
  - destruct Hs2 as [|y l2 Hs2 Hy].
    { specialize (Hf (rank x)). simpl in Hf. by rewrite Z.eqb_refl in Hf. }
    rewrite List.Forall_forall in Hx, Hy. unfold byRank in Hx, Hy.
    assert (Hrank : rank x = rank y).
    { destruct (Z.lt_trichotomy (rank x) (rank y)) as [Hlt|[Heq|Hgt]];
        [|done|].
      - pose proof (Hf (rank x)) as Hfx. simpl in Hfx.
        rewrite Z.eqb_refl in Hfx.
        destruct (Z.eqb_spec (rank y) (rank x)); [lia|].
        assert (In x (List.filter (fun a => rank a =? rank x) l2)) as Hin
          by (rewrite <- Hfx; by left).
        apply filter_In in Hin as [Hin _]. apply Hy in Hin. lia.
      - pose proof (Hf (rank y)) as Hfy. simpl in Hfy.
        rewrite Z.eqb_refl in Hfy.
        destruct (Z.eqb_spec (rank x) (rank y)); [lia|].
        assert (In y (List.filter (fun a => rank a =? rank y) l1)) as Hin
          by (rewrite Hfy; by left).
        apply filter_In in Hin as [Hin _]. apply Hx in Hin. lia. }
    pose proof (Hf (rank x)) as Hfx. simpl in Hfx.
    rewrite <- Hrank, Z.eqb_refl in Hfx. injection Hfx as <- Hfx.
    f_equal. apply IH; [done|]. intros r. specialize (Hf r). simpl in Hf.
    destruct (rank x =? r); [by injection Hf|done].
Qed.

End ArraySortFacts.

(* ===================================================================== *)
(** ** Properties of the catalog *)
(* ===================================================================== *)

Lemma FAILURE_PATTERNS_severity : patternsOK FAILURE_PATTERNS.
Proof. by_evaluation. Qed.

Lemma PLATFORM_FAILURE_PATTERNS_severity :
  map_Forall (fun _ l => patternsOK l) PLATFORM_FAILURE_PATTERNS.
Proof.
  intros platform l Hl. apply elem_of_list_to_map_2 in Hl.
  repeat (apply elem_of_cons in Hl as [[= _ ->]|Hl];
          [by_evaluation|]).
  by apply elem_of_nil in Hl.
Qed.

Lemma patterns_severity options :
  patternsOK (FailureAnalyzer.patterns options).
Proof.
  unfold FailureAnalyzer.patterns. apply Forall_app. split.
  - apply FAILURE_PATTERNS_severity.
  - destruct (PLATFORM_FAILURE_PATTERNS !! _) as [l|] eqn:Hl; simpl.
    + by apply (PLATFORM_FAILURE_PATTERNS_severity _ _ Hl).
    + constructor.
Qed.

Lemma COMMON_FIXES_known : fixesKnown COMMON_FIXES.
Proof. by_evaluation. Qed.

Lemma PLATFORM_FIXES_known : map_Forall (fun _ l => fixesKnown l) PLATFORM_FIXES.
Proof.
  intros platform l Hl. apply elem_of_list_to_map_2 in Hl.
  repeat (apply elem_of_cons in Hl as [[= _ ->]|Hl];
          [by_evaluation|]).
  by apply elem_of_nil in Hl.
Qed.

(* ===================================================================== *)
(** ** Properties of the analyzer *)
(* ===================================================================== *)

Section AnalyzerFacts.
Variable options : SelfHealingOptions.t.

(** A detected failure comes from a matcher of a pattern of the catalog. *)
Lemma detectedFailures_origin log f :
  In f (detectedFailures options log) ->
  exists pattern regex,
    In pattern (patterns options)
    /\ In regex (FailurePattern.patterns pattern)
    /\ detect log pattern regex = Some f.
Proof.
  unfold detectedFailures. rewrite in_flat_map.
  intros (pattern & Hp & Hf). apply list_elem_of_In in Hf.
  apply list_elem_of_omap in Hf as (regex & Hr & Hd).
  apply list_elem_of_In in Hr. eauto.
Qed.

Lemma detect_severity log pattern regex f :
  detect log pattern regex = Some f ->
  DetectedFailure.severity f = FailurePattern.severity pattern
  /\ DetectedFailure.type f = FailurePattern.type pattern.
Proof.
  unfold detect. destruct (RegExp.match_ log regex); [|done].
  by intros [= <-].
Qed.

Lemma detectedFailures_severity log :
  Forall (fun f => catalogSeverity (DetectedFailure.severity f))
         (detectedFailures options log).
Proof.
  apply List.Forall_forall. intros f Hf.
  apply detectedFailures_origin in Hf as (pattern & regex & Hp & _ & Hd).
  apply detect_severity in Hd as [-> _].
  pose proof (patterns_severity options) as HP.
  unfold patternsOK in HP. rewrite List.Forall_forall in HP. by apply HP.
Qed.

Lemma collectedFailures_severity log :
  Forall (fun f => catalogSeverity (DetectedFailure.severity f))
         (collectedFailures options log).
Proof.
  unfold collectedFailures.
  destruct (List.length _ =? 0)%nat; [|apply detectedFailures_severity].
  apply Forall_app. split; [apply detectedFailures_severity|].
  constructor; [|constructor]. right. by left.
Qed.

Lemma collectedFailures_nonempty log : collectedFailures options log <> [].
Proof.
  unfold collectedFailures.
  destruct (detectedFailures options log) as [|f l]; simpl; done.
Qed.

Lemma detectedFailures_none log :
  noMatcherMatches options log -> detectedFailures options log = [].
Proof.
  unfold noMatcherMatches, detectedFailures.
  induction 1 as [|pattern l Hp _ IH]; [done|].
  cbn [flat_map]. rewrite IH, app_nil_r. clear IH.
  induction Hp as [|regex rs Hr _ IH]; [done|].
  cbn [omap list_omap]. unfold detect at 1. by rewrite Hr.
Qed.

Lemma bySeverity_rank a b :
  ranked a -> ranked b -> bySeverity a b = Some (rankOf a - rankOf b).
Proof.
  unfold ranked, rankOf, bySeverity. intros [x ->] [y ->]. done.
Qed.

Lemma catalogSeverity_ranked f :
  catalogSeverity (DetectedFailure.severity f) -> ranked f.
Proof. unfold ranked. intros [-> | [-> | ->]]; by eexists. Qed.

Lemma collectedFailures_ranked log :
  Forall ranked (collectedFailures options log).
Proof.
  eapply Forall_impl; [apply collectedFailures_severity|].
  apply catalogSeverity_ranked.
Qed.

Lemma analyzeFailure_perm log :
  analyzeFailure options log ≡ₚ collectedFailures options log.
Proof. apply sort_perm. Qed.

End AnalyzerFacts.

(* ===================================================================== *)
(** ** Theorems about the analyzer *)
(* ===================================================================== *)

Section AnalyzerTheorems.

Lemma StronglySorted_impl_on {A} (P : A -> Prop) (R R' : A -> A -> Prop) l :
  (forall a b, P a -> P b -> R a b -> R' a b) ->
  Forall P l -> StronglySorted R l -> StronglySorted R' l.
Proof.
  intros HR HP Hs. induction Hs as [|x l Hs IH Hx]; [constructor|].
  apply Forall_cons in HP as [HPx HPl].
  constructor; [by apply IH|].
  rewrite List.Forall_forall in *. intros y Hy. apply HR; auto.
Qed.

Lemma severityOrder_presentation s r :
  severityOrder s = Some r ->
  0 <= r /\ presentationOrder !! Z.to_nat r = Some s.
Proof.
  unfold severityOrder.
  repeat match goal with
         | |- context [String.eqb s ?x] =>
             destruct (String.eqb_spec s x) as [-> | _];
             [intros [= <-]; split; [lia|reflexivity]|]
         end.
  done.
Qed.

Lemma byRank_notLessSevere a b :
  ranked a -> ranked b -> byRank rankOf a b ->
  notLessSevere (DetectedFailure.severity a) (DetectedFailure.severity b).
Proof.
  unfold ranked, byRank, rankOf. intros [x Hx] [y Hy]. rewrite Hx, Hy.
  simpl. intros Hle.
  apply severityOrder_presentation in Hx as [? Hx], Hy as [? Hy].
  exists (Z.to_nat x), (Z.to_nat y). repeat split; [done|done|lia].
Qed.

Lemma hasSeverity_rank s a b :
  ranked a -> ranked b ->
  hasSeverity s a = true -> hasSeverity s b = true -> rankOf a = rankOf b.
Proof.
  unfold hasSeverity, rankOf. intros _ _.
  intros ->%String.eqb_eq ->%String.eqb_eq. done.
Qed.

(** The tests of the repository hold of the embedding. *)
Example test_should_detect_test_failures :
  firstFailure (analyzeFailure (optionsFor "github") testFailureLog)
  = Some (FailureType.TEST, FailureSeverity.MEDIUM).
Proof. by vm_compute. Qed.

Example test_should_detect_dependency_issues :
  firstFailure (analyzeFailure (optionsFor "github") dependencyLog)
  = Some (FailureType.DEPENDENCY, FailureSeverity.HIGH).
Proof. by vm_compute. Qed.

Example test_should_detect_resource_constraints :
  firstFailure (analyzeFailure (optionsFor "github") resourceLog)
  = Some (FailureType.RESOURCE, FailureSeverity.HIGH).
Proof. by vm_compute. Qed.

(** C1. For every log (the empty one included) and every platform the
    analyzer returns a non-empty list; when no matcher of any pattern of
    the catalog matches the log, the list has exactly one failure, of type
    Unknown and severity Medium. *)
Theorem analyzeFailure_nonempty_unknown_fallback options log :
  analyzeFailure options log <> []
  /\ (noMatcherMatches options log ->
      exists f,
        analyzeFailure options log = [f]
        /\ DetectedFailure.type f = FailureType.UNKNOWN
        /\ DetectedFailure.severity f = FailureSeverity.MEDIUM).
Proof.
  split.
  - intros Hnil. apply (collectedFailures_nonempty options log).
    apply Permutation_nil_r. rewrite <- Hnil.
    symmetry. apply analyzeFailure_perm.
  - intros Hno. exists unknownFailure.
    unfold analyzeFailure, collectedFailures.
    by rewrite (detectedFailures_none options log Hno).
Qed.

Lemma analyzeFailure_empty_log_witness :
  noMatcherMatches (optionsFor "github") (js "")
  /\ exists f,
       analyzeFailure (optionsFor "github") (js "") = [f]
       /\ DetectedFailure.type f = FailureType.UNKNOWN
       /\ DetectedFailure.severity f = FailureSeverity.MEDIUM.
Proof.
  assert (H : noMatcherMatches (optionsFor "github") (js "")).
  { unfold noMatcherMatches.
    refine (bool_decide_unpack _ _). vm_compute. exact I. }
  split; [exact H|].
  exact (proj2
    (analyzeFailure_nonempty_unknown_fallback (optionsFor "github") (js ""))
    H).
Defined.

(** C3. The list the analyzer returns is in the presentation order
    Critical, High, Medium, Low, and it holds the collected failures with
    those of one severity in the order in which their patterns and
    matchers were evaluated. *)
Theorem analyzeFailure_sorted_stable options log :
  StronglySorted
    (fun a b =>
       notLessSevere (DetectedFailure.severity a) (DetectedFailure.severity b))
    (analyzeFailure options log)
  /\ analyzeFailure options log ≡ₚ collectedFailures options log
  /\ forall s,
       List.filter (hasSeverity s) (analyzeFailure options log)
       = List.filter (hasSeverity s) (collectedFailures options log).
Proof.
  pose proof (collectedFailures_ranked options log) as Hr.
  split; [|split].
  - apply (StronglySorted_impl_on ranked (byRank rankOf)).
    + apply byRank_notLessSevere.
    + by rewrite analyzeFailure_perm.
    + apply (sort_sorted bySeverity ranked rankOf bySeverity_rank _ Hr).
  - apply analyzeFailure_perm.
  - intros s.
    apply (sort_filter bySeverity ranked rankOf bySeverity_rank); [|done].
    apply hasSeverity_rank.
Qed.

(** The result does not depend on how the stable sort is made: a list in
    rank order with the classes of the collected failures is the result. *)
Lemma analyzeFailure_the_stable_sort options log l :
  StronglySorted (byRank rankOf) l ->
  (forall r, List.filter (fun f => rankOf f =? r) l
             = List.filter (fun f => rankOf f =? r)
                           (collectedFailures options log)) ->
  l = analyzeFailure options log.
Proof.
  intros Hs Hf. pose proof (collectedFailures_ranked options log) as Hr.
  apply (stable_sorted_unique rankOf); [done| |].
  - apply (sort_sorted bySeverity ranked rankOf bySeverity_rank _ Hr).
  - intros r. rewrite Hf. symmetry.
    apply (sort_filter bySeverity ranked rankOf bySeverity_rank); [|done].
    intros a b _ _ Ha Hb. apply Z.eqb_eq in Ha, Hb. lia.
Qed.

(** C9. Every pattern of the catalog, common or of a platform, has
    severity High, Medium or Low, none is Critical; so for every log and
    platform every failure the analyzer returns has one of these three
    severities and its confidence base is never the 90 of Critical. *)
Theorem catalog_never_critical :
  Forall (fun p => catalogSeverity (FailurePattern.severity p)
                   /\ FailurePattern.severity p <> FailureSeverity.CRITICAL)
         FAILURE_PATTERNS
  /\ (forall platform overlay,
        PLATFORM_FAILURE_PATTERNS !! platform = Some overlay ->
        Forall (fun p => catalogSeverity (FailurePattern.severity p)
                         /\ FailurePattern.severity p
                            <> FailureSeverity.CRITICAL)
               overlay)
  /\ dom PLATFORM_FAILURE_PATTERNS
     = ({["github"; "gitlab"; "circleci"; "aws"]} : gset string)
  /\ forall options log,
       Forall (fun f => catalogSeverity (DetectedFailure.severity f)
                        /\ DetectedFailure.severity f
                           <> FailureSeverity.CRITICAL
                        /\ baseConfidence (DetectedFailure.severity f) <= 75)
              (analyzeFailure options log).
Proof.
  assert (Hnc : forall s, catalogSeverity s ->
            s <> FailureSeverity.CRITICAL /\ baseConfidence s <= 75).
  { intros s [-> | [-> | ->]]; by vm_compute. }
  split; [|split; [|split]].
  - eapply Forall_impl; [apply FAILURE_PATTERNS_severity|].
    intros p Hp. split; [done|]. by apply Hnc.
  - intros platform overlay Hl.
    eapply Forall_impl;
      [apply (PLATFORM_FAILURE_PATTERNS_severity _ _ Hl)|].
    intros p Hp. split; [done|]. by apply Hnc.
  - unfold PLATFORM_FAILURE_PATTERNS. rewrite dom_list_to_map_L.
    cbn [fmap list_fmap fst list_to_set foldr]. set_solver.
  - intros options log. rewrite analyzeFailure_perm.
    eapply Forall_impl; [apply collectedFailures_severity|].
    intros f Hf. split; [done|]. by apply Hnc.
Qed.

(** *** Confidence *)

Lemma baseConfidence_spec s : baseConfidence s = specBase s.
Proof.
  unfold specBase.
  repeat (case_decide; [subst; reflexivity|]).
  unfold baseConfidence.
  by rewrite !(proj2 (String.eqb_neq _ _)) by done.
Qed.

Lemma specBase_range s : 30 <= specBase s <= 90.
Proof. unfold specBase. repeat case_decide; lia. Qed.

Lemma truthy_platformSpecific f :
  truthy (FailureFix.platformSpecific f) = true <-> isPlatformSpecific f.
Proof.
  unfold isPlatformSpecific.
  destruct (FailureFix.platformSpecific f) as [[]|]; simpl; split; congruence.
Qed.

Lemma existsb_platformSpecific fixes :
  existsb (fun f => truthy (FailureFix.platformSpecific f)) fixes
  = bool_decide (Exists isPlatformSpecific fixes).
Proof.
  destruct (existsb _ fixes) eqn:E; symmetry.
  - apply bool_decide_eq_true. apply List.Exists_exists.
    apply existsb_exists in E as (f & Hin & Hf).
    exists f. split; [done|]. by apply truthy_platformSpecific.
  - apply bool_decide_eq_false. intros (f & Hin & Hf)%List.Exists_exists.
    apply truthy_platformSpecific in Hf.
    assert (existsb (fun f => truthy (FailureFix.platformSpecific f)) fixes
            = true) by (apply existsb_exists; eauto).
    congruence.
Qed.

Lemma max_min_clamp x : Z.max 0 (Z.min 100 x) = clamp 0 100 x.
Proof. unfold clamp. repeat case_decide; lia. Qed.

(** The computation of the code is the one the specification words. *)
Lemma calculateConfidence_spec failure fixes :
  calculateConfidence failure fixes = specConfidence failure fixes.
Proof.
  unfold calculateConfidence, specConfidence, specRawConfidence.
  rewrite baseConfidence_spec, existsb_platformSpecific, max_min_clamp.
  f_equal.
  destruct (Nat.eqb_spec (List.length fixes) 0);
    destruct (Nat.ltb_spec 3 (List.length fixes));
    destruct (String.eqb_spec (DetectedFailure.type failure)
                              FailureType.UNKNOWN);
    repeat case_bool_decide; repeat case_decide; try congruence; lia.
Qed.

Lemma filter_and_nil {A} (p q : A -> bool) l :
  Forall (fun x => p x = false) l ->
  List.filter (fun x => p x && q x) l = [].
Proof. induction 1 as [|x l Hx _ IH]; [done|]. simpl. by rewrite Hx. Qed.

(** No fix is retrieved for a failure of type [UNKNOWN]. *)
Lemma getFixesForFailure_unknown options failure :
  DetectedFailure.type failure = FailureType.UNKNOWN ->
  getFixesForFailure options failure = [].
Proof.
  intros Hu. unfold getFixesForFailure. rewrite Hu.
  change (List.filter _ COMMON_FIXES) with (@nil FailureFix.t).
  destruct (PLATFORM_FIXES !! _) as [l|] eqn:Hl; [|done].
  simpl.
  rewrite <- (filter_and_nil
    (fun f => String.eqb (FailureFix.type f) FailureType.UNKNOWN)
    (fun f => truthy (FailureFix.platformSpecific f)
              && match FailureFix.platforms f with
                 | Some ps =>
                     existsb
                       (String.eqb (SelfHealingOptions.platform options)) ps
                 | None => false
                 end) l (PLATFORM_FIXES_known _ _ Hl)).
  apply filter_ext. intros f. by rewrite andb_assoc.
Qed.

(** C2. The confidence of every suggestion is: base 90 for Critical, 75
    for High, 60 for Medium, 40 for Low, 30 for any other severity; minus
    20 for an empty fix list; minus 10 for more than 3 fixes; minus 30 for
    the type Unknown; plus 10 when some fix is platform-specific; clamped to
    the interval from 0 to 100. *)
Theorem suggestFixes_confidence_formula options failures :
  Forall2
    (fun failure s =>
       FixSuggestion.failure s = failure
       /\ FixSuggestion.fixes s = getFixesForFailure options failure
       /\ FixSuggestion.confidence s
          = specConfidence failure (FixSuggestion.fixes s))
    failures (suggestFixes options failures)
  /\ forall failure fixes,
       calculateConfidence failure fixes = specConfidence failure fixes.
Proof.
  split; [|apply calculateConfidence_spec].
  induction failures as [|failure l IH]; simpl; constructor; [|done].
  simpl. repeat split. apply calculateConfidence_spec.
Qed.

(** C7. The confidence of a suggestion is between 0 and 100 for every
    failure; for a failure of type Unknown, of any severity, it is at most
    60; and for a Low failure of type Unknown no fix is retrieved, the
    computation before the clamp is negative and the confidence is 0. *)
Theorem unknown_confidence_bounds options failure :
  0 <= FixSuggestion.confidence (suggestFix options failure) <= 100
  /\ (DetectedFailure.type failure = FailureType.UNKNOWN ->
      FixSuggestion.confidence (suggestFix options failure) <= 60
      /\ (DetectedFailure.severity failure = FailureSeverity.LOW ->
          FixSuggestion.fixes (suggestFix options failure) = []
          /\ specRawConfidence failure
               (FixSuggestion.fixes (suggestFix options failure)) < 0
          /\ FixSuggestion.confidence (suggestFix options failure) = 0)).
Proof.
  cbn [suggestFix FixSuggestion.confidence FixSuggestion.fixes].
  split; [unfold calculateConfidence; lia|].
  intros Hu. rewrite (getFixesForFailure_unknown options failure Hu).
  rewrite calculateConfidence_spec.
  unfold specConfidence, specRawConfidence. rewrite Hu. cbn [List.length].
  split.
  - pose proof (specBase_range (DetectedFailure.severity failure)).
    unfold clamp. repeat case_decide; try done; lia.
  - intros ->. split; [done|]. by vm_compute.
Qed.

Lemma unknown_confidence_bounds_witness :
  DetectedFailure.type lowUnknownFailure = FailureType.UNKNOWN
  /\ DetectedFailure.severity lowUnknownFailure = FailureSeverity.LOW
  /\ FixSuggestion.confidence
       (suggestFix DEFAULT_SELF_HEALING_OPTIONS lowUnknownFailure) = 0.
Proof.
  split; [reflexivity|]. split; [reflexivity|].
  exact (proj2 (proj2 (proj2 (proj2
    (unknown_confidence_bounds DEFAULT_SELF_HEALING_OPTIONS lowUnknownFailure)
    eq_refl) eq_refl))).
Defined.

(** *** The test-failure scenario *)

Lemma scenarioLog_analysis :
  analyzeFailure DEFAULT_SELF_HEALING_OPTIONS scenarioLog = [unknownFailure].
Proof. by vm_compute. Qed.

(** C4, as stated, does not hold: for the log of the scenario the analyzer
    does not return one failure of type Test and severity Medium carrying
    an excerpt of the log, with a confidence between 40 and 70. *)
Lemma scenario_is_not_a_test_failure :
  ~ (exists f s,
       analyzeFailure DEFAULT_SELF_HEALING_OPTIONS scenarioLog = [f]
       /\ DetectedFailure.type f = FailureType.TEST
       /\ DetectedFailure.severity f = FailureSeverity.MEDIUM
       /\ JS.includes scenarioLog (DetectedFailure.message f) = true
       /\ suggestFixes DEFAULT_SELF_HEALING_OPTIONS [f] = [s]
       /\ FixSuggestion.autoFixPossible s = false
       /\ 40 <= FixSuggestion.confidence s <= 70).
Proof.
  intros (f & s & Hf & Ht & _).
  rewrite scenarioLog_analysis in Hf. injection Hf as <-.
  discriminate Ht.
Qed.

(** C4, amended. No matcher of the catalog matches the log of the
    scenario: the analyzer (platform github, default options) returns
    exactly one failure, of type Unknown and severity Medium, whose message
    is the text [Unknown failure]; the suggestion for it has no fix,
    [autoFixPossible] false and confidence 10. *)
Theorem scenario_is_unknown_failure :
  noMatcherMatches DEFAULT_SELF_HEALING_OPTIONS scenarioLog
  /\ (exists f,
        analyzeFailure DEFAULT_SELF_HEALING_OPTIONS scenarioLog = [f]
        /\ DetectedFailure.type f = FailureType.UNKNOWN
        /\ DetectedFailure.severity f = FailureSeverity.MEDIUM
        /\ DetectedFailure.message f = js "Unknown failure")
  /\ (exists s,
        suggestFixes DEFAULT_SELF_HEALING_OPTIONS
          (analyzeFailure DEFAULT_SELF_HEALING_OPTIONS scenarioLog) = [s]
        /\ FixSuggestion.fixes s = []
        /\ FixSuggestion.autoFixPossible s = false
        /\ FixSuggestion.confidence s = 10).
Proof.
  split; [|split].
  - unfold noMatcherMatches. refine (bool_decide_unpack _ _).
    vm_compute. exact I.
  - exists unknownFailure. by rewrite scenarioLog_analysis.
  - rewrite scenarioLog_analysis. eexists. split; [reflexivity|].
    by vm_compute.
Qed.

End AnalyzerTheorems.

(* ===================================================================== *)
(** ** Theorems about the manager *)
(* ===================================================================== *)

Section ReportTheorems.

Lemma bothChecksApplied_github text : bothChecksApplied "github" text.
Proof.
  unfold bothChecksApplied, generateSelfHealingReport, timeoutCheck,
    platformChecks, allAbsent, retryMarkers, cachingMarkers, timeoutMarkers.
  cbv [String.eqb Ascii.eqb Bool.eqb forallb]. all_markers.
Qed.

Lemma bothChecksApplied_gitlab text : bothChecksApplied "gitlab" text.
Proof.
  unfold bothChecksApplied, generateSelfHealingReport, timeoutCheck,
    platformChecks, allAbsent, retryMarkers, cachingMarkers, timeoutMarkers.
  cbv [String.eqb Ascii.eqb Bool.eqb forallb]. all_markers.
Qed.

Lemma bothChecksApplied_circleci text : bothChecksApplied "circleci" text.
Proof.
  unfold bothChecksApplied, generateSelfHealingReport, timeoutCheck,
    platformChecks, allAbsent, retryMarkers, cachingMarkers, timeoutMarkers.
  cbv [String.eqb Ascii.eqb Bool.eqb forallb]. all_markers.
Qed.

Lemma retryCheckOnly_aws text : retryCheckOnly "aws" text.
Proof.
  unfold retryCheckOnly, generateSelfHealingReport, timeoutCheck,
    platformChecks, allAbsent, retryMarkers, cachingMarkers, timeoutMarkers.
  cbv [String.eqb Ascii.eqb Bool.eqb forallb]. all_markers.
Qed.

(** C6, as stated, does not hold: on the empty text, where every marker
    is absent, the report for [aws] has no Missing Caching vulnerability
    and deducts no 10 points. *)
Lemma aws_caching_check_missing :
  ~ (forall platform text,
       In platform supportedPlatforms -> bothChecksApplied platform text).
Proof.
  intros H. specialize (H "aws" (js "")).
  destruct H as (_ & Hcache & _); [simpl; tauto|].
  vm_compute in Hcache. discriminate Hcache.
Qed.

(** C6, amended. For github, gitlab and circleci and every text both
    platform checks are applied: Missing Retry Mechanism with 15 points
    when the retry markers are all absent, Missing Caching with 10 points
    when the caching markers are all absent. For aws only the retry check
    is applied. *)
Theorem platform_checks_by_platform text :
  bothChecksApplied "github" text
  /\ bothChecksApplied "gitlab" text
  /\ bothChecksApplied "circleci" text
  /\ retryCheckOnly "aws" text.
Proof.
  repeat split;
    first [apply bothChecksApplied_github | apply bothChecksApplied_gitlab
          | apply bothChecksApplied_circleci | apply retryCheckOnly_aws].
Qed.

(** C8. For github and the empty text the score is 70 and the report has
    exactly three vulnerabilities: retry, caching and timeout. *)
Theorem empty_github_report :
  let r := generateSelfHealingReport "github" (js "") in
  selfHealingScore r = 100 - 15 - 10 - 5
  /\ selfHealingScore r = 70
  /\ List.length (vulnerabilities r) = 3%nat
  /\ map Vulnerability.type (vulnerabilities r)
     = ["Missing Retry Mechanism"; "Missing Caching";
        "Missing Timeout Configuration"].
Proof. by vm_compute. Qed.






End ReportTheorems.

(* ===================================================================== *)
(** ** Theorems about fix attempts *)
(* ===================================================================== *)

Section AttemptFixTheorems.
Variables (env : Env) (options : SelfHealingOptions.t).

(** Logging a fix attempt removes no file. *)
Lemma logFixAttempt_keeps_files suggestion success output error w path :
  is_Some (files w !! path) ->
  is_Some
    (files (logFixAttempt env options suggestion success output error w).1
     !! path).
Proof.
  intros Hp.
  unfold logFixAttempt, tryCatch, ensureDir, writeJson, fsCall, consoleError,
    now, mbind, M_bind.
  repeat (match goal with
          | |- context [fault ?e ?c ?w] => destruct (fault e c w)
          end; simpl); try done.
  unfold store. apply lookup_insert_is_Some'. by right.
Qed.

(** Logging never throws: its errors go to the console. *)
Lemma logFixAttempt_returns suggestion success output error w :
  (logFixAttempt env options suggestion success output error w).2 = inl tt.
Proof.
  unfold logFixAttempt, tryCatch, ensureDir, writeJson, fsCall, consoleError,
    now, mbind, M_bind.
  repeat (match goal with
          | |- context [fault ?e ?c ?w] => destruct (fault e c w)
          end; simpl); done.
Qed.

(** C5, on the path where the script fails. When the subprocess fails, the
    attempt returns a failure and the script it wrote to the temporary
    directory is still there: the removal is skipped by the exception. *)
Theorem attemptFix_leaves_script_when_command_fails
    suggestion workingDir w script error :
  FixSuggestion.autoFixPossible suggestion = true ->
  firstScript suggestion = Some script ->
  faultless env ->
  commandFails env error ->
  exists w' r,
    attemptFix env options suggestion workingDir w = (w', inl r)
    /\ AttemptResult.success r = false
    /\ is_Some (files w' !! scriptFileAt env (clock w)).
Proof.
  intros Hauto Hscript Hfault Hfail.
  unfold attemptFix. rewrite Hauto. simpl.
  unfold firstScript in Hscript.
  destruct (List.find _ _) as [fix_|]; [|done]. simpl in Hscript.
  rewrite Hscript. simpl.
  unfold tryCatch, mbind, M_bind, now, writeFile, chmod, execAsync, fsCall.
  rewrite !Hfault. simpl. unfold store. rewrite lookup_insert_eq.
  rewrite ?Hfault, Hfail.
  match goal with
  | |- context [logFixAttempt ?e ?o ?s ?b ?out ?err ?w0] =>
      pose proof (logFixAttempt_keeps_files s b out err w0
                    (scriptFileAt env (clock w))) as Hkeep;
      pose proof (logFixAttempt_returns s b out err w0) as Hret;
      destruct (logFixAttempt e o s b out err w0) as [w' res]
  end.
  simpl in Hkeep, Hret. subst res.
  do 2 eexists. split; [reflexivity|]. split; [done|].
  apply Hkeep. simpl. by rewrite lookup_insert_eq.
Qed.

(** Without faults the log goes to [fixAttemptFile]. *)
Lemma logFixAttempt_faultless suggestion success output error w :
  faultless env ->
  exists d,
    files (logFixAttempt env options suggestion success output error w).1
    = store (fixAttemptFile env (clock w)) d (files w).
Proof.
  intros Hfault.
  unfold logFixAttempt, tryCatch, ensureDir, writeJson, fsCall, consoleError,
    now, mbind, M_bind.
  rewrite !Hfault. simpl. rewrite ?Hfault. simpl. eexists. reflexivity.
Qed.

(** The path where the script succeeds does remove it. *)
Lemma attemptFix_removes_script_when_command_succeeds
    suggestion workingDir w script stdout stderr :
  FixSuggestion.autoFixPossible suggestion = true ->
  firstScript suggestion = Some script ->
  faultless env ->
  commandSucceeds env stdout stderr ->
  fixAttemptFile env (clock w) <> scriptFileAt env (clock w) ->
  exists w' r,
    attemptFix env options suggestion workingDir w = (w', inl r)
    /\ AttemptResult.success r = true
    /\ files w' !! scriptFileAt env (clock w) = None.
Proof.
  intros Hauto Hscript Hfault Hok Hne.
  unfold attemptFix. rewrite Hauto. simpl.
  unfold firstScript in Hscript.
  destruct (List.find _ _) as [fix_|]; [|done]. simpl in Hscript.
  rewrite Hscript. simpl.
  unfold tryCatch, mbind, M_bind, now, writeFile, chmod, execAsync, remove,
    fsCall.
  rewrite !Hfault. simpl. unfold store at 1. rewrite lookup_insert_eq.
  rewrite ?Hfault, Hok. simpl. rewrite ?Hfault.
  match goal with
  | |- context [logFixAttempt ?e ?o ?s ?b ?out ?err ?w0] =>
      pose proof (logFixAttempt_faultless s b out err w0 Hfault) as [d Hlog];
      pose proof (logFixAttempt_returns s b out err w0) as Hret;
      destruct (logFixAttempt e o s b out err w0) as [w' res]
  end.
  simpl in Hlog, Hret. subst res.
  do 2 eexists. split; [reflexivity|]. split; [done|].
  rewrite Hlog. unfold store at 1.
  rewrite lookup_insert_ne by done. by rewrite lookup_delete_eq.
Qed.

End AttemptFixTheorems.

Lemma attemptFix_leaves_script_witness :
  FixSuggestion.autoFixPossible buildSuggestion = true
  /\ is_Some (firstScript buildSuggestion)
  /\ exists w' r,
       attemptFix failingEnv DEFAULT_SELF_HEALING_OPTIONS buildSuggestion
         "/work" startWorld = (w', inl r)
       /\ AttemptResult.success r = false
       /\ is_Some (files w' !! "/tmp/qforge-fix-1700000000000.sh").
Proof.
  split; [reflexivity|]. split; [by eexists|].
  exact (attemptFix_leaves_script_when_command_fails
           failingEnv DEFAULT_SELF_HEALING_OPTIONS buildSuggestion "/work"
           startWorld _ _ eq_refl eq_refl
           (fun _ _ => eq_refl) (fun _ _ _ => eq_refl)).
Defined.
